(** * Shallow embedding of torchtitan/parallelisms/parallelize_llama.py

    The file models the pipeline-parallel stage partitioner, the schedule
    builder, the activation-checkpoint wrapper and [parallelize_llama].
    Tensors are represented by their dtype and shape only; the torch and
    pippy calls made by the source are represented by records recording
    the arguments they receive. *)

From Stdlib Require Import List Arith Lia String Ascii Bool.
Import ListNotations.
Open Scope string_scope.
Open Scope nat_scope.
Open Scope list_scope.

(** ** Python exceptions and results *)

Inductive PyError :=
| AssertionError
| NotImplementedError
| ZeroDivisionError
| IndexError
| RuntimeError.

Inductive Result (A : Type) :=
| Ok (a : A)
| Err (e : PyError).
Arguments Ok {A} a.
Arguments Err {A} e.

Definition rbind {A B} (r : Result A) (f : A -> Result B) : Result B :=
  match r with Ok a => f a | Err e => Err e end.

Notation "'let!' x := r 'in' k" := (rbind r (fun x => k))
  (at level 200, x name, r at level 100, k at level 200).

(** Python's [a // b] on non-negative ints. *)
Definition py_floordiv (a b : nat) : Result nat :=
  if b =? 0 then Err ZeroDivisionError else Ok (a / b).

(** ** Configuration *)

Record ACConfig := {
  mode : string;
  selective_ac_option : string
}.

Record JobConfig := {
  batch_size : nat;
  seq_len : nat;
  norm_type : string;
  pipeline_parallel_split_mode : string;
  pipeline_parallel_schedule : string;
  activation_checkpoint : ACConfig
}.

(** The fields of [parallel_dims] the file reads. *)
Record ParallelDims := {
  pd_pp : nat;
  pd_tp : nat;
  pp_enabled : bool;
  tp_enabled : bool;
  dp_enabled : bool;
  loss_parallel_enabled : bool
}.

Record ModelConfig := {
  vocab_size : nat;
  dim : nat
}.

(** ** Stage layer names

    The names of [this_stage_layer_names]: ["tok_embeddings"],
    [f"layers.{i}"], ["norm"] and ["output"]. *)
Inductive LayerName :=
| tok_embeddings
| layers (i : nat)
| norm
| output.

Definition LayerName_eq_dec (x y : LayerName) : {x = y} + {x <> y}.
Proof. decide equality; apply Nat.eq_dec. Defined.

Definition name_in (x : LayerName) (l : list LayerName) : bool :=
  if in_dec LayerName_eq_dec x l then true else false.

(** Lines 257-268 of [apply_pipeline_parallelism_manual]; the mesh size
    [pp_size] and [parallel_dims.pp] are separate arguments as in the
    source. *)
Definition stage_layer_names (n_layers dims_pp pp_size pp_rank : nat)
  : Result (list LayerName) :=
  let! layers_per_rank := py_floordiv n_layers dims_pp in
  let layer_offset := layers_per_rank * pp_rank in
  let names := map (fun i => layers (i + layer_offset)) (seq 0 layers_per_rank) in
  if pp_rank =? 0 then
    let names := tok_embeddings :: names in
    if name_in (layers 0) names then Ok names else Err AssertionError
  else if pp_rank =? pp_size - 1 then
    let names := names ++ [norm; output] in
    if name_in (layers 1) names then Ok names else Err AssertionError
  else Ok names.

(** ** TransformerChunk (lines 148-182) *)

Record TransformerChunk := {
  tc_tok_embeddings : bool;
  tc_layers : list nat;        (** keys of the [ModuleDict], in order *)
  tc_norm : bool;
  tc_output : bool;
  tc_input_seqlen : nat
}.

(** The layer indices taken from the names containing ["layers."];
    [orig_model.layers[int(idx)]] raises [IndexError] out of range. *)
Fixpoint chunk_layers (n_layers : nat) (names : list LayerName)
  : Result (list nat) :=
  match names with
  | [] => Ok []
  | layers i :: rest =>
      if i <? n_layers then
        let! r := chunk_layers n_layers rest in Ok (i :: r)
      else Err IndexError
  | _ :: rest => chunk_layers n_layers rest
  end.

Definition make_TransformerChunk (n_layers : nat) (names : list LayerName)
  (input_seqlen : nat) : Result TransformerChunk :=
  let! ls := chunk_layers n_layers names in
  Ok {| tc_tok_embeddings := name_in tok_embeddings names;
        tc_layers := ls;
        tc_norm := name_in norm names;
        tc_output := name_in output names;
        tc_input_seqlen := input_seqlen |}.

(** ** Tensors and [torch.chunk] *)

Inductive DType := int64 | float32.

Record Tensor := {
  dtype : DType;
  shape : list nat
}.

(** [torch.randint(high, size, dtype=...)] and [torch.empty(size, dtype=...)]:
    only the dtype and the shape of the result matter here;
    [randint] refuses an empty range [0, high). *)
Definition randint (high : nat) (size : list nat) (dt : DType) : Result Tensor :=
  if high =? 0 then Err RuntimeError else Ok {| dtype := dt; shape := size |}.

Definition empty (size : list nat) (dt : DType) : Tensor :=
  {| dtype := dt; shape := size |}.

(** Sizes along dim 0 of the pieces of [torch.chunk(t, chunks)] for a
    dim-0 size [n]: pieces of [ceil(n / chunks)] rows, the last one
    possibly shorter (ATen's [chunk]). *)
Definition chunk_sizes (n chunks : nat) : Result (list nat) :=
  if chunks =? 0 then Err RuntimeError
  else
    let split_size := (n + chunks - 1) / chunks in
    if split_size =? 0 then Ok (repeat 0 chunks)
    else Ok (repeat split_size (n / split_size)
             ++ (if n mod split_size =? 0 then [] else [n mod split_size])).

(** [t.chunk(chunks)[0]]. *)
Definition chunk0 (t : Tensor) (chunks : nat) : Result Tensor :=
  match shape t with
  | [] => Err RuntimeError
  | n :: rest =>
      let! sizes := chunk_sizes n chunks in
      match sizes with
      | [] => Err IndexError
      | s :: _ => Ok {| dtype := dtype t; shape := s :: rest |}
      end
  end.

(** ** Example input and output of the manual stage (lines 280-312) *)

Definition example_io (pp_rank : nat) (dims : ParallelDims) (job : JobConfig)
  (mc : ModelConfig) : Result (Tensor * Tensor) :=
  if pp_rank =? 0 then
    let input_shape := [batch_size job; seq_len job] in
    let! input := randint (vocab_size mc) input_shape int64 in
    let! s := py_floordiv (seq_len job) (pd_tp dims) in
    let output_shape := [batch_size job; s; dim mc] in
    Ok (input, empty output_shape float32)
  else
    let! s := py_floordiv (seq_len job) (pd_tp dims) in
    let input_shape := [batch_size job; s; dim mc] in
    let! input := randint (vocab_size mc) input_shape float32 in
    let! s' := py_floordiv (seq_len job) (pd_tp dims) in
    let output_shape := [batch_size job; s'; dim mc] in
    Ok (input, empty output_shape float32).

(** ** [ManualPipelineStage(...)]: the arguments it receives *)

Record ManualPipelineStage := {
  mps_stage_index : nat;
  mps_num_stages : nat;
  mps_num_microbatches : nat;
  mps_input_args : Tensor;
  mps_output_args : Tensor
}.

(** [world_mesh["pp"]]: the local rank and the size of the pipeline axis. *)
Record PPMesh := {
  pp_local_rank : nat;
  pp_mesh_size : nat
}.

(** [apply_pipeline_parallelism_manual] (lines 243-325), for a model with
    [n_layers] transformer blocks. *)
Definition apply_pipeline_parallelism_manual (n_layers : nat) (mesh : PPMesh)
  (dims : ParallelDims) (job : JobConfig) (mc : ModelConfig)
  : Result (ManualPipelineStage * TransformerChunk) :=
  let pp_rank := pp_local_rank mesh in
  let pp_size := pp_mesh_size mesh in
  let microbatches := pd_pp dims in
  let! names := stage_layer_names n_layers (pd_pp dims) pp_size pp_rank in
  let input_seqlen := 2048 in
  let! model := make_TransformerChunk n_layers names input_seqlen in
  let! io := example_io pp_rank dims job mc in
  let! input_args := chunk0 (fst io) microbatches in
  let! output_args := chunk0 (snd io) microbatches in
  Ok ({| mps_stage_index := pp_rank;
         mps_num_stages := pp_size;
         mps_num_microbatches := microbatches;
         mps_input_args := input_args;
         mps_output_args := output_args |}, model).

(** ** [apply_pipeline_parallelism_tracer] (lines 328-367)

    Everything up to the call of pippy's [pipeline]; the stage it builds
    is represented by its index and the split points it is given. *)

Record TracerStage := {
  ts_stage_index : nat;
  ts_split_spec : list LayerName   (** the keys of the dict [split_spec] *)
}.

(** A dict filled by [d[k] = v] for each key in turn. All values of
    [split_spec] are [SplitPoint.BEGINNING], so the dict is its list of
    keys in insertion order; a key assigned again keeps its first place. *)
Definition dict_insert (d : list LayerName) (k : LayerName) : list LayerName :=
  if name_in k d then d else d ++ [k].

Definition dict_of_keys (ks : list LayerName) : list LayerName :=
  fold_left dict_insert ks [].

(** [torch.randint(high, size, dtype=..., device="meta")]: a meta tensor has
    a shape and a dtype and no data; nothing is drawn. *)
Definition randint_meta (high : nat) (size : list nat) (dt : DType) : Tensor :=
  {| dtype := dt; shape := size |}.

Definition apply_pipeline_parallelism_tracer (n_layers : nat) (mesh : PPMesh)
  (dims : ParallelDims) (job : JobConfig) (model_vocab_size : nat)
  : Result TracerStage :=
  if negb (pp_enabled dims) then Err AssertionError
  else if String.eqb (norm_type job) "fused_rmsnorm" then Err NotImplementedError
  else
    let pp_rank := pp_local_rank mesh in
    let! layers_per_rank := py_floordiv n_layers (pd_pp dims) in
    let split_spec := dict_of_keys (map (fun i => layers (i * layers_per_rank))
                                        (seq 1 (pd_pp dims - 1))) in
    let _input_ids := randint_meta model_vocab_size
                        [batch_size job; seq_len job] int64 in
    Ok {| ts_stage_index := pp_rank; ts_split_spec := split_spec |}.

(** ** [apply_pipeline_parallelism] (lines 210-224) *)

Inductive PipelineStage :=
| ManualStage (s : ManualPipelineStage) (m : TransformerChunk)
| TracerStageOf (s : TracerStage).

Definition apply_pipeline_parallelism (n_layers : nat) (mesh : PPMesh)
  (dims : ParallelDims) (job : JobConfig) (mc : ModelConfig)
  : Result PipelineStage :=
  if String.eqb (pipeline_parallel_split_mode job) "manual" then
    let! r := apply_pipeline_parallelism_manual n_layers mesh dims job mc in
    Ok (ManualStage (fst r) (snd r))
  else if String.eqb (pipeline_parallel_split_mode job) "tracer" then
    let! s := apply_pipeline_parallelism_tracer n_layers mesh dims job
                (vocab_size mc) in
    Ok (TracerStageOf s)
  else Err NotImplementedError.

(** ** [build_pipeline_schedule] (lines 227-240) *)

Inductive ScheduleKind := Schedule1F1B | ScheduleGPipe.

Record Schedule (Stage : Type) := {
  schedule_class : ScheduleKind;
  sched_stage : Stage;
  n_microbatches : nat
}.
Arguments schedule_class {Stage}.
Arguments sched_stage {Stage}.
Arguments n_microbatches {Stage}.

Definition build_pipeline_schedule {Stage : Type} (job : JobConfig)
  (dims : ParallelDims) (stage : Stage) : Result (Schedule Stage) :=
  let! schedule_class :=
    if String.eqb (pipeline_parallel_schedule job) "1f1b" then Ok Schedule1F1B
    else if String.eqb (pipeline_parallel_schedule job) "gpipe" then Ok ScheduleGPipe
    else Err NotImplementedError in
  Ok {| schedule_class := schedule_class; sched_stage := stage;
        n_microbatches := pd_pp dims |}.


(** ** Example configurations *)

Definition job_of (b s : nat) (split sched : string) (ac : ACConfig) : JobConfig :=
  {| batch_size := b; seq_len := s; norm_type := "rmsnorm";
     pipeline_parallel_split_mode := split; pipeline_parallel_schedule := sched;
     activation_checkpoint := ac |}.

Definition dims_of (pp tp : nat) (dp : bool) : ParallelDims :=
  {| pd_pp := pp; pd_tp := tp; pp_enabled := 1 <? pp; tp_enabled := 1 <? tp;
     dp_enabled := dp; loss_parallel_enabled := false |}.

Definition no_ac : ACConfig := {| mode := "none"; selective_ac_option := "2" |}.

Definition small_mc : ModelConfig := {| vocab_size := 100; dim := 64 |}.

(** ** Selective per-op checkpoint policy (lines 51-79) *)

Inductive Op :=
| aten_mm
| aten_scaled_dot_product_efficient_attention
| aten_scaled_dot_product_flash_attention
| c10d_functional_reduce_scatter_tensor
| other_op (name : string).

Definition Op_eq_dec (x y : Op) : {x = y} + {x <> y}.
Proof. decide equality; apply string_dec. Defined.

Definition op_eqb (x y : Op) : bool := if Op_eq_dec x y then true else false.

Definition no_recompute_list : list Op :=
  [aten_mm; aten_scaled_dot_product_efficient_attention;
   aten_scaled_dot_product_flash_attention; c10d_functional_reduce_scatter_tensor].

Definition op_in (x : Op) (l : list Op) : bool :=
  if in_dec Op_eq_dec x l then true else false.

(** [meta = defaultdict(int)]: a counter per string key. *)
Definition Meta := string -> nat.

Definition meta_empty : Meta := fun _ => 0.

Definition meta_set (meta : Meta) (k : string) (v : nat) : Meta :=
  fun k' => if String.eqb k' k then v else meta k'.

(** [_custom_policy(mode, func)]: the save decision and the updated [meta]. *)
Definition custom_policy (meta : Meta) (mode : string) (func : Op) : bool * Meta :=
  let mm_count_key := (mode ++ "_mm_count")%string in
  let meta := if op_eqb func aten_mm
              then meta_set meta mm_count_key (meta mm_count_key + 1) else meta in
  (op_in func no_recompute_list
   && negb (op_eqb func aten_mm && (meta mm_count_key mod 2 =? 0)), meta).

(** The policy applied to the operations of one checkpointed region, in
    order, with the [meta] of one [selective_checkpointing_context_fn] call. *)
Fixpoint run_policy (meta : Meta) (calls : list (string * Op)) : list bool :=
  match calls with
  | [] => []
  | (m, f) :: rest =>
      let (saved, meta') := custom_policy meta m f in
      saved :: run_policy meta' rest
  end.

(** ** Modules touched by [parallelize_llama] *)

(** [ptd_checkpoint_wrapper] with the selective per-op [context_fn]
    ([SelectiveOpCkpt]) or without one ([PlainCkpt]). *)
Inductive CkptKind := SelectiveOpCkpt | PlainCkpt.

Record Block := {
  n_heads : nat;
  n_kv_heads : nat;
  block_tp : bool;           (** [parallelize_module] applied to the block *)
  ckpt : list CkptKind;      (** checkpoint wrappers around it, outermost first *)
  block_fsdp : bool          (** [fully_shard] applied *)
}.

Record Model := {
  root_tp : bool;            (** tok_embeddings / output / norm parallelized *)
  model_layers : list Block;
  root_fsdp : bool
}.

Definition wrap (k : CkptKind) (b : Block) : Block :=
  {| n_heads := n_heads b; n_kv_heads := n_kv_heads b; block_tp := block_tp b;
     ckpt := k :: ckpt b; block_fsdp := block_fsdp b |}.

(** ** State and errors

    The heap holds the model object passed to [parallelize_llama] and the
    attribute [_count] of the function object [checkpoint_wrapper]
    ([None] while [setdefault] has not created it). *)
Record World := {
  heap_model : Model;
  ckpt_count : option nat
}.

Definition M (A : Type) := World -> Result A * World.

Definition ret {A} (a : A) : M A := fun w => (Ok a, w).
Definition raise {A} (e : PyError) : M A := fun w => (Err e, w).
Definition bind {A B} (m : M A) (f : A -> M B) : M B :=
  fun w => match m w with
           | (Ok a, w') => f a w'
           | (Err e, w') => (Err e, w')
           end.

Notation "'let*' x := m 'in' k" := (bind m (fun x => k))
  (at level 200, x name, m at level 100, k at level 200).

Definition lift {A} (r : Result A) : M A :=
  match r with Ok a => ret a | Err e => raise e end.

Definition get_model : M Model := fun w => (Ok (heap_model w), w).
Definition put_model (m : Model) : M unit :=
  fun w => (Ok tt, {| heap_model := m; ckpt_count := ckpt_count w |}).

(** [checkpoint_wrapper.__dict__.setdefault("_count", 0)] *)
Definition setdefault_count : M nat :=
  fun w => match ckpt_count w with
           | Some c => (Ok c, w)
           | None => (Ok 0, {| heap_model := heap_model w; ckpt_count := Some 0 |})
           end.
Definition set_count (c : nat) : M unit :=
  fun w => (Ok tt, {| heap_model := heap_model w; ckpt_count := Some c |}).

(** ** [str.isdigit] and [int] on ASCII strings *)

Definition is_digit (c : ascii) : bool :=
  (48 <=? nat_of_ascii c) && (nat_of_ascii c <=? 57).

Fixpoint all_digits (s : string) : bool :=
  match s with
  | EmptyString => true
  | String c r => is_digit c && all_digits r
  end.

(** [str.isdigit] on strings of 7-bit characters, where it holds exactly
    for the non-empty strings of '0'..'9'. Python also accepts other Unicode
    digits (e.g. U+0663, U+00B2), which these strings do not represent:
    statements that need [isdigit] to be false assume [ascii7]. *)
Definition isdigit (s : string) : bool :=
  match s with EmptyString => false | _ => all_digits s end.

Fixpoint py_int_acc (acc : nat) (s : string) : nat :=
  match s with
  | EmptyString => acc
  | String c r => py_int_acc (acc * 10 + (nat_of_ascii c - 48)) r
  end.

Definition py_int (s : string) : nat := py_int_acc 0 s.

(** Every character is 7-bit ASCII. *)
Fixpoint ascii7 (s : string) : bool :=
  match s with
  | EmptyString => true
  | String c r => (nat_of_ascii c <? 128) && ascii7 r
  end.

(** ** [checkpoint_wrapper] (lines 62-128) *)

Definition checkpoint_wrapper (module : Block) (config : ACConfig) : M Block :=
  if String.eqb (mode config) "selective"
     && String.eqb (selective_ac_option config) "op" then
    ret (wrap SelectiveOpCkpt module)
  else if String.eqb (mode config) "full" then
    ret (wrap PlainCkpt module)
  else if String.eqb (mode config) "selective"
          && isdigit (selective_ac_option config) then
    (* [assert every_x_layer >= 0] holds: [int] of a digit string *)
    let every_x_layer := py_int (selective_ac_option config) in
    let* c := setdefault_count in
    let* _ := set_count (c + 1) in
    if (every_x_layer =? 0) || ((c + 1) mod every_x_layer =? 0)
    then ret (wrap PlainCkpt module)
    else ret module
  else raise NotImplementedError.

(** ** [parallelize_llama] (lines 370-481) *)

(** The parts of [world_mesh] the function reads. *)
Record WorldMesh := {
  wm_ndim : nat;
  wm_mesh_dim_names : list string;
  wm_tp_size : nat               (** [world_mesh["tp"].size()] *)
}.

Definition get_layer (i : nat) : M Block :=
  let* m := get_model in
  match nth_error (model_layers m) i with
  | Some b => ret b
  | None => raise IndexError
  end.

(** [model.layers.add_module(name, block)] for the [i]-th child, or the
    in-place mutation of that child. *)
Definition set_layer (i : nat) (b : Block) : M unit :=
  let* m := get_model in
  put_model {| root_tp := root_tp m;
               model_layers := firstn i (model_layers m) ++ b :: skipn (S i) (model_layers m);
               root_fsdp := root_fsdp m |}.

(** [for layer_name, transformer_block in model.layers.named_children(): ...]
    for a body that ends by storing the block back under its name. *)
Fixpoint for_layers (idx : list nat) (body : Block -> M Block) : M unit :=
  match idx with
  | [] => ret tt
  | i :: rest =>
      let* b := get_layer i in
      let* b' := body b in
      let* _ := set_layer i b' in
      for_layers rest body
  end.

Definition each_layer (body : Block -> M Block) : M unit :=
  let* m := get_model in
  for_layers (seq 0 (List.length (model_layers m))) body.

(** Lines 432-441: the head counts are divided in place, then
    [parallelize_module] shards the block's submodules. *)
Definition tp_block (tp_size : nat) (b : Block) : M Block :=
  let* h := lift (py_floordiv (n_heads b) tp_size) in
  let b := {| n_heads := h; n_kv_heads := n_kv_heads b; block_tp := block_tp b;
              ckpt := ckpt b; block_fsdp := block_fsdp b |} in
  let* kv := lift (py_floordiv (n_kv_heads b) tp_size) in
  let b := {| n_heads := n_heads b; n_kv_heads := kv; block_tp := block_tp b;
              ckpt := ckpt b; block_fsdp := block_fsdp b |} in
  ret {| n_heads := n_heads b; n_kv_heads := n_kv_heads b; block_tp := true;
         ckpt := ckpt b; block_fsdp := block_fsdp b |}.

Definition fully_shard_block (b : Block) : Block :=
  {| n_heads := n_heads b; n_kv_heads := n_kv_heads b; block_tp := block_tp b;
     ckpt := ckpt b; block_fsdp := true |}.

Definition dp_block (ac : ACConfig) (b : Block) : M Block :=
  let* b := if String.eqb (mode ac) "full" || String.eqb (mode ac) "selective"
            then checkpoint_wrapper b ac else ret b in
  ret (fully_shard_block b).

Definition parallelize_llama (world_mesh : WorldMesh) (dims : ParallelDims)
  (job : JobConfig) : M Model :=
  let* _ :=
    if tp_enabled dims then
      if String.eqb (norm_type job) "fused_rmsnorm" then raise NotImplementedError
      else
        let* m := get_model in
        let* _ := put_model {| root_tp := true; model_layers := model_layers m;
                               root_fsdp := root_fsdp m |} in
        each_layer (tp_block (wm_tp_size world_mesh))
    else ret tt in
  let* _ :=
    if dp_enabled dims then
      let dp_names := if 1 <? wm_ndim world_mesh then ["dp"]
                      else wm_mesh_dim_names world_mesh in
      if list_eq_dec string_dec dp_names ["dp"] then
        let* _ := each_layer (dp_block (activation_checkpoint job)) in
        let* m := get_model in
        put_model {| root_tp := root_tp m; model_layers := model_layers m;
                     root_fsdp := true |}
      else raise AssertionError
    else ret tt in
  get_model.

(** ** Auxiliary definitions used by the statements *)

Fixpoint thread (h : option nat -> Block -> Block * option nat)
  (c : option nat) (bs : list Block) : list Block * option nat :=
  match bs with
  | [] => ([], c)
  | b :: rest =>
      let (b', c') := h c b in
      let (rest', c'') := thread h c' rest in
      (b' :: rest', c'')
  end.

Definition with_layers (m : Model) (ls : list Block) : Model :=
  {| root_tp := root_tp m; model_layers := ls; root_fsdp := root_fsdp m |}.

Definition tp_shrink (tp_size : nat) (b : Block) : Block :=
  {| n_heads := n_heads b / tp_size; n_kv_heads := n_kv_heads b / tp_size;
     block_tp := true; ckpt := ckpt b; block_fsdp := block_fsdp b |}.

(** One visit of the cadence mode in the loop of lines 458-473. *)
Definition cadence_step (every_x_layer : nat) (c : option nat) (b : Block)
  : Block * option nat :=
  let c0 := match c with Some k => k | None => 0 end in
  (fully_shard_block
     (if (every_x_layer =? 0) || ((c0 + 1) mod every_x_layer =? 0)
      then wrap PlainCkpt b else b), Some (c0 + 1)).

Definition count0 (c : option nat) : nat := match c with Some k => k | None => 0 end.

(** The save decision as the spec words it: an operation of the
    no-recompute set is saved, except the even-numbered occurrences of
    matrix-multiply ([mm_count] counts them up to and including this one). *)
Definition spec_op_saved (mm_count : nat) (f : Op) : bool :=
  match f with
  | aten_mm => negb (Nat.even mm_count)
  | other_op _ => false
  | _ => true
  end.

Definition blk (h kv : nat) : Block :=
  {| n_heads := h; n_kv_heads := kv; block_tp := false; ckpt := [];
     block_fsdp := false |}.

Definition mesh_tp2 : WorldMesh :=
  {| wm_ndim := 1; wm_mesh_dim_names := ["dp"]; wm_tp_size := 2 |}.

Definition cad2 : ACConfig := {| mode := "selective"; selective_ac_option := "2" |}.

(** Which blocks of a model carry a checkpoint wrapper. *)
Definition wrapped_status (m : Model) : list bool :=
  map (fun b => match ckpt b with [] => false | _ => true end) (model_layers m).

Definition model5 : Model :=
  {| root_tp := false; model_layers := repeat (blk 8 8) 5; root_fsdp := false |}.

Definition mesh_dp : WorldMesh :=
  {| wm_ndim := 1; wm_mesh_dim_names := ["dp"]; wm_tp_size := 1 |}.

Definition pass_status (r : Result Model) : Result (list bool) :=
  match r with Ok m => Ok (wrapped_status m) | Err e => Err e end.

(** The model after the tensor-parallel part of [parallelize_llama]
    (lines 378-443): root sharded, every block's head counts divided. *)
Definition tp_applied (tp_size : nat) (m : Model) : Model :=
  {| root_tp := true; model_layers := map (tp_shrink tp_size) (model_layers m);
     root_fsdp := root_fsdp m |}.

Definition dims_no_tp (d : ParallelDims) : ParallelDims :=
  {| pd_pp := pd_pp d; pd_tp := pd_tp d; pp_enabled := pp_enabled d;
     tp_enabled := false; dp_enabled := dp_enabled d;
     loss_parallel_enabled := loss_parallel_enabled d |}.

(** The model after the data-parallel part (lines 445-479) when each block
    becomes [fully_shard_block (g block)]. *)
Definition dp_applied (g : Block -> Block) (m : Model) : Model :=
  {| root_tp := root_tp m; model_layers := map (fun b => fully_shard_block (g b)) (model_layers m);
     root_fsdp := true |}.

Definition with_pp_enabled (d : ParallelDims) (p : bool) : ParallelDims :=
  {| pd_pp := pd_pp d; pd_tp := pd_tp d; pp_enabled := p;
     tp_enabled := tp_enabled d; dp_enabled := dp_enabled d;
     loss_parallel_enabled := loss_parallel_enabled d |}.

Definition with_norm_type (j : JobConfig) (n : string) : JobConfig :=
  {| batch_size := batch_size j; seq_len := seq_len j; norm_type := n;
     pipeline_parallel_split_mode := pipeline_parallel_split_mode j;
     pipeline_parallel_schedule := pipeline_parallel_schedule j;
     activation_checkpoint := activation_checkpoint j |}.

(** ** General facts on the partitioner *)

Lemma chunk_sizes_head (n chunks : nat) :
  0 < chunks ->
  exists rest, chunk_sizes n chunks = Ok ((n + chunks - 1) / chunks :: rest).
Proof.
  intros Hc. unfold chunk_sizes.
  destruct (Nat.eqb_spec chunks 0) as [|_]; [lia|].
  set (sz := (n + chunks - 1) / chunks).
  destruct (Nat.eqb_spec sz 0) as [Hz|Hz].
  - destruct chunks as [|c]; [lia|]. rewrite Hz. exists (repeat 0 c). reflexivity.
  - assert (Hn : 1 <= n).
    { destruct n as [|n]; [|lia]. exfalso. apply Hz. unfold sz.
      apply Nat.div_small. lia. }
    assert (Hle : sz <= n).
    { unfold sz. apply Nat.Div0.div_le_upper_bound. nia. }
    assert (Hq : 1 <= n / sz).
    { apply Nat.div_str_pos. lia. }
    destruct (n / sz) as [|q] eqn:E; [lia|].
    exists (repeat sz q ++ (if n mod sz =? 0 then [] else [n mod sz])).
    reflexivity.
Qed.

Lemma chunk_sizes_divisible (n chunks : nat) :
  0 < chunks -> Nat.divide chunks n ->
  chunk_sizes n chunks = Ok (repeat (n / chunks) chunks).
Proof.
  intros Hc [q ->]. unfold chunk_sizes.
  destruct (Nat.eqb_spec chunks 0) as [|_]; [lia|].
  assert (Hs : (q * chunks + chunks - 1) / chunks = q).
  { replace (q * chunks + chunks - 1) with ((chunks - 1) + q * chunks) by lia.
    rewrite Nat.div_add by lia. rewrite Nat.div_small by lia. lia. }
  cbv zeta. rewrite Hs. rewrite (Nat.div_mul q chunks) by lia.
  destruct (Nat.eqb_spec q 0) as [->|Hq].
  - reflexivity.
  - rewrite (Nat.mul_comm q chunks), Nat.div_mul, Nat.Div0.mod_mul by lia.
    simpl. rewrite app_nil_r. reflexivity.
Qed.

Lemma list_sum_repeat (x n : nat) : list_sum (repeat x n) = n * x.
Proof. induction n as [|n IH]; simpl; lia. Qed.

Lemma chunk_sizes_shape (n k : nat) :
  0 < k -> 0 < n ->
  exists j rest,
    chunk_sizes n k = Ok (repeat ((n + k - 1) / k) j ++ rest)
    /\ List.length rest <= 1
    /\ Forall (fun x => 0 < x <= (n + k - 1) / k) (repeat ((n + k - 1) / k) j ++ rest)
    /\ list_sum (repeat ((n + k - 1) / k) j ++ rest) = n
    /\ List.length (repeat ((n + k - 1) / k) j ++ rest) <= k.
Proof.
  intros Hk Hn. unfold chunk_sizes.
  destruct (Nat.eqb_spec k 0) as [|_]; [lia|].
  set (sz := (n + k - 1) / k).
  pose proof (Nat.div_mod_eq (n + k - 1) k) as E1.
  pose proof (Nat.mod_upper_bound (n + k - 1) k ltac:(lia)) as B1.
  fold sz in E1.
  assert (Hsz : 0 < sz) by nia.
  destruct (Nat.eqb_spec sz 0) as [|_]; [lia|].
  pose proof (Nat.div_mod_eq n sz) as E2.
  pose proof (Nat.mod_upper_bound n sz ltac:(lia)) as B2.
  exists (n / sz), (if n mod sz =? 0 then [] else [n mod sz]).
  split; [reflexivity|].
  destruct (Nat.eqb_spec (n mod sz) 0) as [H0|H0].
  - rewrite app_nil_r. split; [simpl; lia|]. split; [|split].
    + apply Forall_forall. intros x Hx. apply repeat_spec in Hx. lia.
    + rewrite list_sum_repeat. nia.
    + rewrite repeat_length. nia.
  - split; [simpl; lia|]. split; [|split].
    + apply Forall_app. split; [|constructor; [lia | constructor]].
      apply Forall_forall. intros x Hx. apply repeat_spec in Hx. lia.
    + rewrite list_sum_app, list_sum_repeat. simpl. nia.
    + rewrite length_app, repeat_length. simpl.
      assert (n / sz < k) by nia. lia.
Qed.

Lemma chunk0_shape (t : Tensor) (chunks n : nat) (rest : list nat) :
  0 < chunks -> shape t = n :: rest ->
  chunk0 t chunks = Ok {| dtype := dtype t;
                          shape := (n + chunks - 1) / chunks :: rest |}.
Proof.
  intros Hc Hs. unfold chunk0. rewrite Hs.
  destruct (chunk_sizes_head n chunks Hc) as [r ->]. reflexivity.
Qed.

Lemma stage_layer_names_zero_rank0 (L pp pp_size : nat) :
  py_floordiv L pp = Ok 0 -> stage_layer_names L pp pp_size 0 = Err AssertionError.
Proof.
  intros H. unfold stage_layer_names. rewrite H. reflexivity.
Qed.

Lemma stage_layer_names_zero_interior (L pp pp_size r : nat) :
  py_floordiv L pp = Ok 0 -> 0 < r < pp_size - 1 ->
  stage_layer_names L pp pp_size r = Ok [].
Proof.
  intros H Hr. unfold stage_layer_names. rewrite H. simpl.
  destruct (Nat.eqb_spec r 0); [lia|].
  destruct (Nat.eqb_spec r (pp_size - 1)); [lia|]. reflexivity.
Qed.

Lemma stage_layer_names_ok_pos (L pp pp_size r : nat) names :
  stage_layer_names L pp pp_size r = Ok names -> 0 < pp.
Proof.
  unfold stage_layer_names, py_floordiv.
  destruct (Nat.eqb_spec pp 0); [discriminate | lia].
Qed.

Lemma example_io_eq (r : nat) dims job mc :
  0 < pd_tp dims -> 0 < vocab_size mc ->
  example_io r dims job mc =
  Ok (if r =? 0 then {| dtype := int64; shape := [batch_size job; seq_len job] |}
      else {| dtype := float32;
              shape := [batch_size job; seq_len job / pd_tp dims; dim mc] |},
      {| dtype := float32;
         shape := [batch_size job; seq_len job / pd_tp dims; dim mc] |}).
Proof.
  intros Htp Hv. unfold example_io, py_floordiv, randint.
  destruct (Nat.eqb_spec (pd_tp dims) 0); [lia|].
  destruct (Nat.eqb_spec (vocab_size mc) 0); [lia|].
  destruct (r =? 0); reflexivity.
Qed.

Lemma example_io_batch (r : nat) dims job mc i o :
  example_io r dims job mc = Ok (i, o) ->
  exists ri ro, shape i = batch_size job :: ri /\ shape o = batch_size job :: ro.
Proof.
  unfold example_io, py_floordiv, randint.
  destruct (r =? 0), (pd_tp dims =? 0), (vocab_size mc =? 0); simpl;
    try discriminate; intros H; injection H as <- <-; simpl; eauto.
Qed.

Ltac ok_step :=
  match goal with
  | H : rbind ?r _ = Ok _ |- _ =>
      let E := fresh "E" in
      destruct r eqn:E; simpl in H; [|discriminate]
  end.

(** ** The layer loop as a counter-threading map *)

Section ForLayers.
Variable h : option nat -> Block -> Block * option nat.
Variable body : Block -> M Block.
Hypothesis body_thread : forall b w,
  body b w = (Ok (fst (h (ckpt_count w) b)),
              {| heap_model := heap_model w; ckpt_count := snd (h (ckpt_count w) b) |}).

Lemma for_layers_thread (bs pre : list Block) (m : Model) (c : option nat) :
  model_layers m = pre ++ bs ->
  for_layers (seq (List.length pre) (List.length bs)) body
    {| heap_model := m; ckpt_count := c |} =
  (Ok tt, {| heap_model := with_layers m (pre ++ fst (thread h c bs));
             ckpt_count := snd (thread h c bs) |}).
Proof.
  revert pre m c. induction bs as [|b bs IH]; intros pre m c Hm.
  - rewrite app_nil_r in Hm. destruct m as [r ls f]; simpl in Hm; subst ls.
    simpl. unfold ret, with_layers. simpl. rewrite app_nil_r. reflexivity.
  - cbn [seq List.length for_layers].
    unfold bind at 1, get_layer, bind at 1, get_model. simpl.
    rewrite Hm, nth_error_app2, Nat.sub_diag by lia. simpl.
    unfold bind at 1. rewrite body_thread. simpl.
    destruct (h c b) as [b' c'] eqn:Eh. simpl.
    unfold bind at 1, set_layer, bind, get_model, put_model.
    cbn [heap_model ckpt_count model_layers root_tp root_fsdp].
    assert (Hs : firstn (List.length pre) (pre ++ b :: bs)
                 ++ b' :: skipn (S (List.length pre)) (pre ++ b :: bs)
                 = pre ++ b' :: bs).
    { rewrite firstn_app, firstn_all, Nat.sub_diag, app_nil_r.
      f_equal. f_equal. clear. induction pre; simpl; auto. }
    rewrite Hm, Hs.
    replace (S (List.length pre)) with (List.length (pre ++ [b'])) by
      (rewrite length_app; simpl; lia).
    rewrite (IH (pre ++ [b'])) by (simpl; rewrite <- app_assoc; reflexivity).
    destruct (thread h c' bs) as [rest' c''] eqn:Et. simpl.
    rewrite <- app_assoc. destruct m; reflexivity.
Qed.

Lemma each_layer_thread (m : Model) (c : option nat) :
  each_layer body {| heap_model := m; ckpt_count := c |} =
  (Ok tt, {| heap_model := with_layers m (fst (thread h c (model_layers m)));
             ckpt_count := snd (thread h c (model_layers m)) |}).
Proof.
  unfold each_layer, bind at 1, get_model. simpl.
  apply (for_layers_thread (model_layers m) [] m c). reflexivity.
Qed.
End ForLayers.

Lemma world_eta (w : World) :
  {| heap_model := heap_model w; ckpt_count := ckpt_count w |} = w.
Proof. destruct w; reflexivity. Qed.

Lemma tp_block_eq (tp_size : nat) (b : Block) (w : World) :
  0 < tp_size ->
  tp_block tp_size b w =
  (Ok (fst ((fun c b => (tp_shrink tp_size b, c)) (ckpt_count w) b)),
   {| heap_model := heap_model w;
      ckpt_count := snd ((fun c b => (tp_shrink tp_size b, c)) (ckpt_count w) b) |}).
Proof.
  intros H. unfold tp_block, lift, py_floordiv, bind, ret.
  destruct (Nat.eqb_spec tp_size 0); [lia|]. simpl. rewrite world_eta. reflexivity.
Qed.

Lemma thread_tp (tp_size : nat) (c : option nat) (bs : list Block) :
  thread (fun c b => (tp_shrink tp_size b, c)) c bs = (map (tp_shrink tp_size) bs, c).
Proof.
  induction bs as [|b bs IH]; simpl; [reflexivity|]. rewrite IH. reflexivity.
Qed.

Lemma isdigit_not_op (s : string) : isdigit s = true -> String.eqb s "op" = false.
Proof.
  intros H. destruct (String.eqb_spec s "op") as [->|]; [discriminate | reflexivity].
Qed.

Lemma checkpoint_wrapper_cadence (ac : ACConfig) (b : Block) (w : World) :
  mode ac = "selective" -> isdigit (selective_ac_option ac) = true ->
  checkpoint_wrapper b ac w =
  (let N := py_int (selective_ac_option ac) in
   let c0 := match ckpt_count w with Some k => k | None => 0 end in
   (Ok (if (N =? 0) || ((c0 + 1) mod N =? 0) then wrap PlainCkpt b else b),
    {| heap_model := heap_model w; ckpt_count := Some (c0 + 1) |})).
Proof.
  intros Hm Hd. unfold checkpoint_wrapper.
  rewrite Hm, (isdigit_not_op _ Hd), Hd. simpl.
  unfold bind, setdefault_count, set_count, ret.
  destruct (ckpt_count w); simpl;
    destruct (_ || _); reflexivity.
Qed.

Lemma dp_block_cadence (ac : ACConfig) (b : Block) (w : World) :
  mode ac = "selective" -> isdigit (selective_ac_option ac) = true ->
  dp_block ac b w =
  (Ok (fst (cadence_step (py_int (selective_ac_option ac)) (ckpt_count w) b)),
   {| heap_model := heap_model w;
      ckpt_count := snd (cadence_step (py_int (selective_ac_option ac))
                           (ckpt_count w) b) |}).
Proof.
  intros Hm Hd. unfold dp_block. rewrite Hm. simpl.
  unfold bind at 1. rewrite (checkpoint_wrapper_cadence ac b w Hm Hd).
  unfold cadence_step. simpl. destruct (_ || _); reflexivity.
Qed.

Lemma thread_cons (h : option nat -> Block -> Block * option nat) c b bs :
  thread h c (b :: bs) =
  (fst (h c b) :: fst (thread h (snd (h c b)) bs), snd (thread h (snd (h c b)) bs)).
Proof.
  simpl. destruct (h c b) as [b' c']. simpl.
  destruct (thread h c' bs); reflexivity.
Qed.

Lemma cadence_step_snd (N : nat) c b :
  snd (cadence_step N c b) = Some (count0 c + 1).
Proof. reflexivity. Qed.

Lemma thread_cadence_nth (N : nat) (bs : list Block) (c : option nat) (k : nat) :
  nth_error (fst (thread (cadence_step N) c bs)) k =
  option_map (fun b => fully_shard_block
                 (if (N =? 0) || ((count0 c + S k) mod N =? 0)
                  then wrap PlainCkpt b else b)) (nth_error bs k).
Proof.
  revert c k. induction bs as [|b bs IH]; intros c k; [destruct k; reflexivity|].
  rewrite thread_cons, cadence_step_snd.
  destruct k as [|k]; simpl.
  - reflexivity.
  - rewrite IH. simpl. replace (count0 c + 1 + S k) with (count0 c + S (S k)) by lia.
    reflexivity.
Qed.

Lemma thread_cadence_count (N : nat) (bs : list Block) (c : option nat) :
  snd (thread (cadence_step N) c bs) =
  match bs with [] => c | _ => Some (count0 c + List.length bs) end.
Proof.
  revert c. induction bs as [|b bs IH]; intros c; [reflexivity|].
  rewrite thread_cons, cadence_step_snd. simpl. rewrite IH.
  destruct bs; simpl; f_equal; lia.
Qed.

Lemma thread_cadence_length (N : nat) (bs : list Block) (c : option nat) :
  List.length (fst (thread (cadence_step N) c bs)) = List.length bs.
Proof.
  revert c. induction bs as [|b bs IH]; intros c; [reflexivity|].
  rewrite thread_cons. simpl. rewrite IH. reflexivity.
Qed.

(** ** The per-op policy over one pass *)

Lemma mod2_eqb_even (x : nat) : (x mod 2 =? 0) = Nat.even x.
Proof.
  induction x as [x IH] using (well_founded_induction lt_wf).
  destruct x as [|[|x]]; [reflexivity | reflexivity |].
  replace (S (S x)) with (x + 1 * 2) by lia.
  rewrite Nat.Div0.mod_add, IH by lia.
  replace (x + 1 * 2) with (S (S x)) by lia. reflexivity.
Qed.

Lemma run_policy_snoc (meta : Meta) (m : string) (prefix : list Op) (f : Op) :
  run_policy meta (map (pair m) (prefix ++ [f])) =
  run_policy meta (map (pair m) prefix)
  ++ [spec_op_saved (meta (m ++ "_mm_count")%string
                     + count_occ Op_eq_dec (prefix ++ [f]) aten_mm) f].
Proof.
  revert meta. induction prefix as [|g prefix IH]; intros meta.
  - cbn [app map run_policy]. unfold custom_policy. rewrite mod2_eqb_even.
    unfold op_eqb, op_in.
    destruct f; simpl; try reflexivity.
    unfold meta_set. rewrite String.eqb_refl, Nat.add_comm. reflexivity.
  - cbn [app map run_policy].
    destruct (custom_policy meta m g) as [saved meta'] eqn:E.
    rewrite IH. simpl. f_equal. f_equal. f_equal.
    unfold custom_policy in E. injection E as _ <-.
    unfold op_eqb. destruct (Op_eq_dec g aten_mm) as [->|Hg].
    + unfold meta_set. rewrite String.eqb_refl.
      f_equal. lia.
    + destruct (Op_eq_dec g aten_mm); [congruence | reflexivity].
Qed.

(** * Claims *)

(** ** Pipeline stage partitioning *)

(** C1 (code defect): on L = 8, pp = 2 the last rank's assertion
    ["layers.1" in this_stage_layer_names] fails although that rank owns
    layers 4-7, so [apply_pipeline_parallelism_manual] raises
    [AssertionError] there; with pp = 1 the single rank is handled by the
    rank-0 branch only and its stage gets no norm and no output. *)
Theorem C1_manual_partition_eval :
  stage_layer_names 8 2 2 0
    = Ok [tok_embeddings; layers 0; layers 1; layers 2; layers 3]
  /\ stage_layer_names 8 2 2 1 = Err AssertionError
  /\ apply_pipeline_parallelism_manual 8 {| pp_local_rank := 1; pp_mesh_size := 2 |}
       (dims_of 2 1 false) (job_of 8 16 "manual" "1f1b" no_ac) small_mc
     = Err AssertionError
  /\ stage_layer_names 8 1 1 0
     = Ok [tok_embeddings; layers 0; layers 1; layers 2; layers 3;
           layers 4; layers 5; layers 6; layers 7].
Proof. repeat split; vm_compute; reflexivity. Qed.

(** C6 counterexample: L = 2, pp = 3 gives [layers_per_rank = 0], yet the
    interior rank 1 builds its stage without any error. *)
Lemma C6_interior_rank_no_error :
  apply_pipeline_parallelism_manual 2 {| pp_local_rank := 1; pp_mesh_size := 3 |}
    (dims_of 3 1 false) (job_of 6 16 "manual" "1f1b" no_ac) small_mc
  = Ok ({| mps_stage_index := 1; mps_num_stages := 3; mps_num_microbatches := 3;
           mps_input_args := {| dtype := float32; shape := [2; 16; 64] |};
           mps_output_args := {| dtype := float32; shape := [2; 16; 64] |} |},
        {| tc_tok_embeddings := false; tc_layers := []; tc_norm := false;
           tc_output := false; tc_input_seqlen := 2048 |}).
Proof. vm_compute. reflexivity. Qed.

(** C6 (amended): when [pp_size > 1] and [L // pp_size = 0], rank 0 fails
    with [AssertionError] before any stage-local model is built, while an
    interior rank [0 < r < pp_size - 1] raises nothing and builds a stage
    that owns no transformer layer. *)
Theorem C6_zero_layer_stages (L pp : nat) (mesh : PPMesh) (dims : ParallelDims)
  (job : JobConfig) (mc : ModelConfig) :
  pp_mesh_size mesh = pp -> pd_pp dims = pp -> 1 < pp -> py_floordiv L pp = Ok 0 ->
  (pp_local_rank mesh = 0 ->
   apply_pipeline_parallelism_manual L mesh dims job mc = Err AssertionError)
  /\ (0 < pp_local_rank mesh < pp - 1 -> 0 < pd_tp dims -> 0 < vocab_size mc ->
      exists s, apply_pipeline_parallelism_manual L mesh dims job mc
        = Ok (s, {| tc_tok_embeddings := false; tc_layers := []; tc_norm := false;
                    tc_output := false; tc_input_seqlen := 2048 |})).
Proof.
  intros Hsz Hpp H1 Hz. split.
  - intros Hr. unfold apply_pipeline_parallelism_manual.
    rewrite Hr, Hpp, stage_layer_names_zero_rank0 by exact Hz. reflexivity.
  - intros Hr Htp Hv. unfold apply_pipeline_parallelism_manual.
    rewrite Hpp, Hsz, (stage_layer_names_zero_interior L pp pp _ Hz) by lia.
    simpl. rewrite (example_io_eq _ dims job mc Htp Hv).
    destruct (Nat.eqb_spec (pp_local_rank mesh) 0) as [|_]; [lia|]. simpl.
    erewrite chunk0_shape by (lia || reflexivity).
    simpl. eexists. reflexivity.
Qed.

Lemma C6_zero_layer_stages_witness :
  (pp_mesh_size {| pp_local_rank := 1; pp_mesh_size := 3 |} = 3
   /\ pd_pp (dims_of 3 1 false) = 3 /\ 1 < 3 /\ py_floordiv 2 3 = Ok 0)
  /\ ((pp_local_rank {| pp_local_rank := 0; pp_mesh_size := 3 |} = 0 ->
       apply_pipeline_parallelism_manual 2 {| pp_local_rank := 0; pp_mesh_size := 3 |}
         (dims_of 3 1 false) (job_of 6 16 "manual" "1f1b" no_ac) small_mc
       = Err AssertionError)
      /\ (0 < pp_local_rank {| pp_local_rank := 0; pp_mesh_size := 3 |} < 3 - 1 ->
          0 < pd_tp (dims_of 3 1 false) -> 0 < vocab_size small_mc ->
          exists s, apply_pipeline_parallelism_manual 2
            {| pp_local_rank := 0; pp_mesh_size := 3 |}
            (dims_of 3 1 false) (job_of 6 16 "manual" "1f1b" no_ac) small_mc
          = Ok (s, {| tc_tok_embeddings := false; tc_layers := []; tc_norm := false;
                      tc_output := false; tc_input_seqlen := 2048 |}))).
Proof.
  split; [repeat split; vm_compute; reflexivity || lia |].
  apply (C6_zero_layer_stages 2 3); [reflexivity | reflexivity | lia | vm_compute; reflexivity].
Defined.

(** ** Schedule and split-mode names *)

(** C7: a schedule name other than "1f1b" and "gpipe" makes
    [build_pipeline_schedule] raise [NotImplementedError] without building a
    schedule, and a split mode other than "manual" and "tracer" makes
    [apply_pipeline_parallelism] raise it before any partitioning; the
    recognised names select [Schedule1F1B], [ScheduleGPipe], the manual and
    the tracer partitioner. *)
Theorem C7_unknown_names_rejected {Stage : Type} (L : nat) (mesh : PPMesh)
  (dims : ParallelDims) (job : JobConfig) (mc : ModelConfig) (st : Stage) :
  (pipeline_parallel_schedule job <> "1f1b" -> pipeline_parallel_schedule job <> "gpipe" ->
   build_pipeline_schedule job dims st = Err NotImplementedError)
  /\ (pipeline_parallel_schedule job = "1f1b" ->
      build_pipeline_schedule job dims st
      = Ok {| schedule_class := Schedule1F1B; sched_stage := st;
              n_microbatches := pd_pp dims |})
  /\ (pipeline_parallel_schedule job = "gpipe" ->
      build_pipeline_schedule job dims st
      = Ok {| schedule_class := ScheduleGPipe; sched_stage := st;
              n_microbatches := pd_pp dims |})
  /\ (pipeline_parallel_split_mode job <> "manual" ->
      pipeline_parallel_split_mode job <> "tracer" ->
      apply_pipeline_parallelism L mesh dims job mc = Err NotImplementedError)
  /\ (pipeline_parallel_split_mode job = "manual" ->
      apply_pipeline_parallelism L mesh dims job mc
      = let! r := apply_pipeline_parallelism_manual L mesh dims job mc in
        Ok (ManualStage (fst r) (snd r)))
  /\ (pipeline_parallel_split_mode job = "tracer" ->
      apply_pipeline_parallelism L mesh dims job mc
      = let! s := apply_pipeline_parallelism_tracer L mesh dims job (vocab_size mc) in
        Ok (TracerStageOf s)).
Proof.
  unfold build_pipeline_schedule, apply_pipeline_parallelism.
  repeat split; intros H; try intros H'.
  - apply String.eqb_neq in H, H'. rewrite H, H'. reflexivity.
  - rewrite H. reflexivity.
  - rewrite H. reflexivity.
  - apply String.eqb_neq in H, H'. rewrite H, H'. reflexivity.
  - rewrite H. reflexivity.
  - rewrite H. reflexivity.
Qed.

Lemma C7_unknown_names_rejected_witness :
  build_pipeline_schedule (job_of 8 16 "foo" "foo" no_ac) (dims_of 2 1 false) tt
    = Err NotImplementedError
  /\ apply_pipeline_parallelism 8 {| pp_local_rank := 0; pp_mesh_size := 2 |}
       (dims_of 2 1 false) (job_of 8 16 "foo" "foo" no_ac) small_mc
     = Err NotImplementedError.
Proof.
  destruct (C7_unknown_names_rejected 8 {| pp_local_rank := 0; pp_mesh_size := 2 |}
              (dims_of 2 1 false) (job_of 8 16 "foo" "foo" no_ac) small_mc tt)
    as [Hs [_ [_ [Hm _]]]].
  split; [apply Hs | apply Hm]; discriminate.
Defined.

(** ** Declared shapes of the manual stages *)

(** C8: the example input and output of the manual path are declared from
    the configuration, not from the model: on rank 0 an int64 input of
    shape (batch_size, seq_len) and a float32 output of shape
    (batch_size, seq_len // tp, dim); on every later rank the input has the
    shape of the previous rank's output, (batch_size, seq_len // tp, dim);
    the stage receives the first [pp]-chunk of these tensors. *)
Theorem C8_declared_shapes (r L : nat) (mesh : PPMesh) (dims : ParallelDims)
  (job : JobConfig) (mc : ModelConfig) :
  0 < pd_tp dims -> 0 < vocab_size mc ->
  example_io 0 dims job mc
    = Ok ({| dtype := int64; shape := [batch_size job; seq_len job] |},
          {| dtype := float32;
             shape := [batch_size job; seq_len job / pd_tp dims; dim mc] |})
  /\ (0 < r -> exists i o i' o',
        example_io r dims job mc = Ok (i, o)
        /\ example_io (r - 1) dims job mc = Ok (i', o')
        /\ shape i = shape o'
        /\ shape o = [batch_size job; seq_len job / pd_tp dims; dim mc])
  /\ (forall s tc, apply_pipeline_parallelism_manual L mesh dims job mc = Ok (s, tc) ->
      exists i o, example_io (pp_local_rank mesh) dims job mc = Ok (i, o)
        /\ chunk0 i (pd_pp dims) = Ok (mps_input_args s)
        /\ chunk0 o (pd_pp dims) = Ok (mps_output_args s)).
Proof.
  intros Htp Hv. split; [|split].
  - rewrite example_io_eq by assumption. reflexivity.
  - intros Hr. rewrite !example_io_eq by assumption.
    destruct (Nat.eqb_spec r 0) as [|_]; [lia|].
    do 4 eexists. split; [reflexivity|]. split; [reflexivity|].
    simpl. destruct (r - 1 =? 0); split; reflexivity.
  - intros s tc H. unfold apply_pipeline_parallelism_manual in H.
    repeat ok_step. injection H as <- _.
    match goal with a : (Tensor * Tensor)%type |- _ => destruct a as [i o] end.
    exists i, o. simpl in *. auto.
Qed.

Lemma C8_declared_shapes_witness :
  example_io 0 (dims_of 2 2 false) (job_of 8 16 "manual" "1f1b" no_ac) small_mc
    = Ok ({| dtype := int64; shape := [8; 16] |},
          {| dtype := float32; shape := [8; 8; 64] |}).
Proof.
  destruct (C8_declared_shapes 1 8 {| pp_local_rank := 0; pp_mesh_size := 2 |}
              (dims_of 2 2 false) (job_of 8 16 "manual" "1f1b" no_ac) small_mc)
    as [H _]; [vm_compute; lia | vm_compute; lia |].
  exact H.
Defined.

(** ** Microbatch count *)

(** C10 counterexample: with batch_size 5 and pp = 4 the manual path's
    [chunk(4)] cuts the example input into 3 pieces (2, 2 and 1 rows), not
    4, and the stage receives a first piece of 2 rows. *)
Lemma C10_uneven_chunks :
  chunk_sizes 5 4 = Ok [2; 2; 1]
  /\ apply_pipeline_parallelism_manual 8 {| pp_local_rank := 0; pp_mesh_size := 4 |}
       (dims_of 4 1 false) (job_of 5 16 "manual" "1f1b" no_ac) small_mc
     = Ok ({| mps_stage_index := 0; mps_num_stages := 4; mps_num_microbatches := 4;
              mps_input_args := {| dtype := int64; shape := [2; 16] |};
              mps_output_args := {| dtype := float32; shape := [2; 16; 64] |} |},
           {| tc_tok_embeddings := true; tc_layers := [0; 1]; tc_norm := false;
              tc_output := false; tc_input_seqlen := 2048 |}).
Proof. split; vm_compute; reflexivity. Qed.

(** C10 (amended): [build_pipeline_schedule] gives both schedule kinds
    [n_microbatches = parallel_dims.pp]; the manual path passes
    [microbatches = parallel_dims.pp] to the stage and keeps the first piece
    of [chunk(pp)] of its example input and output, of
    ceil(batch_size / pp) rows; [chunk(pp)] yields exactly [pp] pieces of
    [batch_size / pp] rows when [pp] divides [batch_size]; for any positive
    batch it yields pieces of ceil(batch_size / pp) rows followed by at most
    one shorter non-empty piece, adding up to [batch_size], and at most [pp]
    pieces (fewer for some sizes: 5 rows into 4 gives 3). *)
Theorem C10_microbatch_count {Stage : Type} (L : nat) (mesh : PPMesh)
  (dims : ParallelDims) (job : JobConfig) (mc : ModelConfig) (st : Stage)
  (sch : Schedule Stage) (s : ManualPipelineStage) (tc : TransformerChunk) :
  (build_pipeline_schedule job dims st = Ok sch -> n_microbatches sch = pd_pp dims)
  /\ (apply_pipeline_parallelism_manual L mesh dims job mc = Ok (s, tc) ->
      mps_num_microbatches s = pd_pp dims
      /\ exists ri ro,
           shape (mps_input_args s)
             = (batch_size job + pd_pp dims - 1) / pd_pp dims :: ri
           /\ shape (mps_output_args s)
             = (batch_size job + pd_pp dims - 1) / pd_pp dims :: ro)
  /\ (0 < pd_pp dims -> Nat.divide (pd_pp dims) (batch_size job) ->
      chunk_sizes (batch_size job) (pd_pp dims)
      = Ok (repeat (batch_size job / pd_pp dims) (pd_pp dims)))
  /\ (0 < pd_pp dims -> 0 < batch_size job ->
      exists j rest,
        chunk_sizes (batch_size job) (pd_pp dims)
        = Ok (repeat ((batch_size job + pd_pp dims - 1) / pd_pp dims) j ++ rest)
        /\ List.length rest <= 1
        /\ Forall (fun x => 0 < x <= (batch_size job + pd_pp dims - 1) / pd_pp dims)
             (repeat ((batch_size job + pd_pp dims - 1) / pd_pp dims) j ++ rest)
        /\ list_sum (repeat ((batch_size job + pd_pp dims - 1) / pd_pp dims) j ++ rest)
           = batch_size job
        /\ List.length (repeat ((batch_size job + pd_pp dims - 1) / pd_pp dims) j ++ rest)
           <= pd_pp dims).
Proof.
  split; [|split; [|split]].
  - unfold build_pipeline_schedule. intros H.
    destruct (String.eqb _ "1f1b"); [|destruct (String.eqb _ "gpipe")];
      simpl in H; try discriminate; injection H as <-; reflexivity.
  - intros H. unfold apply_pipeline_parallelism_manual in H.
    repeat ok_step. injection H as <- _. simpl. split; [reflexivity|].
    match goal with E : stage_layer_names _ _ _ _ = Ok _ |- _ =>
      pose proof (stage_layer_names_ok_pos _ _ _ _ _ E) as Hpp end.
    match goal with a : (Tensor * Tensor)%type |- _ => destruct a as [i o] end.
    simpl in *.
    match goal with E : example_io _ _ _ _ = Ok (i, o) |- _ =>
      destruct (example_io_batch _ _ _ _ _ _ E) as [ri [ro [Hi Ho]]] end.
    rewrite (chunk0_shape i _ _ ri Hpp Hi) in *.
    rewrite (chunk0_shape o _ _ ro Hpp Ho) in *.
    repeat match goal with H : Ok _ = Ok _ |- _ => injection H as <- end.
    simpl. eauto.
  - apply chunk_sizes_divisible.
  - apply chunk_sizes_shape.
Qed.

Lemma C10_microbatch_count_witness :
  chunk_sizes (batch_size (job_of 8 16 "manual" "1f1b" no_ac)) (pd_pp (dims_of 2 1 false))
  = Ok [4; 4].
Proof.
  destruct (@C10_microbatch_count unit 8 {| pp_local_rank := 0; pp_mesh_size := 2 |}
              (dims_of 2 1 false) (job_of 8 16 "manual" "1f1b" no_ac) small_mc tt
              {| schedule_class := Schedule1F1B; sched_stage := tt; n_microbatches := 2 |}
              {| mps_stage_index := 0; mps_num_stages := 2; mps_num_microbatches := 2;
                 mps_input_args := {| dtype := int64; shape := [4; 16] |};
                 mps_output_args := {| dtype := float32; shape := [4; 16; 64] |} |}
              {| tc_tok_embeddings := true; tc_layers := [0; 1; 2; 3]; tc_norm := false;
                 tc_output := false; tc_input_seqlen := 2048 |})
    as [_ [_ [H _]]].
  apply H; [simpl; lia | exists 4; reflexivity].
Defined.

(** ** Tensor-parallel head counts *)

(** C2 counterexample: one block with 5 heads and 3 kv heads, tensor
    parallel size 2: the TP branch raises nothing and leaves 2 heads and
    1 kv head. *)
Lemma C2_uneven_heads_floor :
  parallelize_llama mesh_tp2 (dims_of 1 2 false) (job_of 8 16 "manual" "1f1b" no_ac)
    {| heap_model := {| root_tp := false; model_layers := [blk 5 3]; root_fsdp := false |};
       ckpt_count := None |}
  = (Ok {| root_tp := true;
           model_layers := [{| n_heads := 2; n_kv_heads := 1; block_tp := true;
                               ckpt := []; block_fsdp := false |}];
           root_fsdp := false |},
     {| heap_model := {| root_tp := true;
                         model_layers := [{| n_heads := 2; n_kv_heads := 1;
                                             block_tp := true; ckpt := [];
                                             block_fsdp := false |}];
                         root_fsdp := false |};
        ckpt_count := None |}).
Proof. vm_compute. reflexivity. Qed.

(** C2 (amended): with tensor parallelism on (and norm type other than
    fused_rmsnorm), the TP branch replaces every block's [n_heads] and
    [n_kv_heads] by their floor quotient by the tensor-parallel size, with
    no divisibility check and no error; when the size divides the counts
    the quotient is exact. *)
Theorem C2_tp_heads_floor_div (mesh : WorldMesh) (dims : ParallelDims)
  (job : JobConfig) (m : Model) (c : option nat) :
  tp_enabled dims = true -> dp_enabled dims = false ->
  norm_type job <> "fused_rmsnorm" -> 0 < wm_tp_size mesh ->
  exists m',
    parallelize_llama mesh dims job {| heap_model := m; ckpt_count := c |}
      = (Ok m', {| heap_model := m'; ckpt_count := c |})
    /\ map n_heads (model_layers m')
       = map (fun b => n_heads b / wm_tp_size mesh) (model_layers m)
    /\ map n_kv_heads (model_layers m')
       = map (fun b => n_kv_heads b / wm_tp_size mesh) (model_layers m)
    /\ (Forall (fun b => Nat.divide (wm_tp_size mesh) (n_heads b)
                         /\ Nat.divide (wm_tp_size mesh) (n_kv_heads b))
          (model_layers m) ->
        map (fun b => (n_heads b * wm_tp_size mesh, n_kv_heads b * wm_tp_size mesh))
            (model_layers m')
        = map (fun b => (n_heads b, n_kv_heads b)) (model_layers m)).
Proof.
  intros Htp Hdp Hn Hpos.
  apply String.eqb_neq in Hn.
  unfold parallelize_llama. rewrite Htp, Hdp, Hn.
  cbv [bind get_model put_model ret]. cbn [heap_model ckpt_count].
  rewrite (each_layer_thread _ _ (fun b w => tp_block_eq _ b w Hpos)).
  rewrite thread_tp. cbn.
  eexists. split; [reflexivity|]. unfold with_layers. cbn [model_layers].
  rewrite !map_map. split; [reflexivity|]. split; [reflexivity|].
  intros HF. apply map_ext_in. intros b Hb.
  rewrite Forall_forall in HF. destruct (HF b Hb) as [[q1 Hq1] [q2 Hq2]].
  simpl. rewrite Hq1, Hq2, !Nat.div_mul by lia. reflexivity.
Qed.

Lemma C2_tp_heads_floor_div_witness :
  exists m',
    parallelize_llama mesh_tp2 (dims_of 1 2 false) (job_of 8 16 "manual" "1f1b" no_ac)
      {| heap_model := {| root_tp := false; model_layers := [blk 8 4]; root_fsdp := false |};
         ckpt_count := None |}
    = (Ok m', {| heap_model := m'; ckpt_count := None |})
    /\ map n_heads (model_layers m') = [4].
Proof.
  destruct (C2_tp_heads_floor_div mesh_tp2 (dims_of 1 2 false)
              (job_of 8 16 "manual" "1f1b" no_ac)
              {| root_tp := false; model_layers := [blk 8 4]; root_fsdp := false |} None)
    as [m' [H1 [H2 _]]]; [reflexivity | reflexivity | discriminate | vm_compute; lia |].
  exists m'. split; [exact H1 | rewrite H2; reflexivity].
Defined.

(** ** Frame: neither TP nor DP *)

(** C9: with the tensor-parallel and data-parallel axes both disabled,
    [parallelize_llama] returns the model it was given and changes nothing,
    whatever the checkpoint configuration. *)
Theorem C9_no_tp_no_dp_identity (mesh : WorldMesh) (dims : ParallelDims)
  (job : JobConfig) (w : World) :
  tp_enabled dims = false -> dp_enabled dims = false ->
  parallelize_llama mesh dims job w = (Ok (heap_model w), w).
Proof.
  intros Htp Hdp. unfold parallelize_llama. rewrite Htp, Hdp. reflexivity.
Qed.

Lemma C9_no_tp_no_dp_identity_witness :
  parallelize_llama mesh_tp2 (dims_of 1 1 false)
    (job_of 8 16 "manual" "1f1b" {| mode := "full"; selective_ac_option := "op" |})
    {| heap_model := {| root_tp := false; model_layers := [blk 8 4]; root_fsdp := false |};
       ckpt_count := None |}
  = (Ok {| root_tp := false; model_layers := [blk 8 4]; root_fsdp := false |},
     {| heap_model := {| root_tp := false; model_layers := [blk 8 4]; root_fsdp := false |};
        ckpt_count := None |}).
Proof. apply C9_no_tp_no_dp_identity; reflexivity. Defined.

(** ** Selective per-op checkpointing *)

(** C3: within one pass (one mode, a fresh [meta]), the decision for each
    operation is [spec_op_saved] of the number of matrix-multiplies seen so
    far, this one included: mm is saved on its odd occurrences only, the
    two attention kernels and reduce-scatter always, anything else never. *)
Theorem C3_selective_op_policy (m : string) (prefix : list Op) (f : Op) :
  run_policy meta_empty (map (pair m) (prefix ++ [f]))
  = run_policy meta_empty (map (pair m) prefix)
    ++ [spec_op_saved (count_occ Op_eq_dec (prefix ++ [f]) aten_mm) f]
  /\ run_policy meta_empty (map (pair m) [aten_mm; aten_mm; aten_mm; aten_mm])
     = [true; false; true; false].
Proof.
  split.
  - apply run_policy_snoc.
  - unfold run_policy, custom_policy, meta_set, meta_empty, op_eqb, op_in.
    cbn. rewrite !String.eqb_refl. reflexivity.
Qed.

(** ** Cadence checkpointing *)

(** C4: in cadence mode N, each visit increments the counter and returns
    the block wrapped iff N = 0 or the incremented counter is a multiple of
    N, and the block itself otherwise; in the layer loop the k-th visited
    block (k from 0) is wrapped iff N = 0 or (c0 + k + 1) mod N = 0, where c0
    is the counter before the loop; for N = 2 and five blocks with a fresh
    counter the statuses are [false; true; false; true; false]. *)
Theorem C4_cadence_wrapping (ac : ACConfig) (b : Block) (m : Model)
  (c : option nat) (k : nat) :
  mode ac = "selective" -> isdigit (selective_ac_option ac) = true ->
  checkpoint_wrapper b ac {| heap_model := m; ckpt_count := c |}
    = (Ok (if (py_int (selective_ac_option ac) =? 0)
              || ((count0 c + 1) mod py_int (selective_ac_option ac) =? 0)
           then wrap PlainCkpt b else b),
       {| heap_model := m; ckpt_count := Some (count0 c + 1) |})
  /\ (exists w', each_layer (dp_block ac) {| heap_model := m; ckpt_count := c |}
                   = (Ok tt, w')
        /\ nth_error (model_layers (heap_model w')) k
           = option_map (fun b => fully_shard_block
                  (if (py_int (selective_ac_option ac) =? 0)
                      || ((count0 c + S k) mod py_int (selective_ac_option ac) =? 0)
                   then wrap PlainCkpt b else b)) (nth_error (model_layers m) k))
  /\ wrapped_status (heap_model (snd (each_layer (dp_block cad2)
        {| heap_model := model5; ckpt_count := None |})))
     = [false; true; false; true; false].
Proof.
  intros Hm Hd. split; [|split].
  - rewrite (checkpoint_wrapper_cadence ac b _ Hm Hd). reflexivity.
  - rewrite (each_layer_thread _ _ (fun b w => dp_block_cadence ac b w Hm Hd)).
    eexists. split; [reflexivity|]. simpl. apply thread_cadence_nth.
  - vm_compute. reflexivity.
Qed.

Lemma C4_cadence_wrapping_witness :
  checkpoint_wrapper (blk 8 8) cad2 {| heap_model := model5; ckpt_count := Some 1 |}
  = (Ok (wrap PlainCkpt (blk 8 8)), {| heap_model := model5; ckpt_count := Some 2 |}).
Proof.
  destruct (C4_cadence_wrapping cad2 (blk 8 8) model5 (Some 1) 0) as [H _];
    [reflexivity | reflexivity |].
  exact H.
Defined.

(** ** Scope of the cadence counter *)

(** C5 counterexample: two successive [parallelize_llama] passes over the
    same five-block model with cadence 2; the second pass starts from the
    counter left by the first and wraps the other blocks. *)
Lemma C5_second_pass_differs :
  let job := job_of 8 16 "manual" "1f1b" cad2 in
  let dims := dims_of 1 1 true in
  let pass1 := parallelize_llama mesh_dp dims job
                 {| heap_model := model5; ckpt_count := None |} in
  let pass2 := parallelize_llama mesh_dp dims job
                 {| heap_model := model5; ckpt_count := ckpt_count (snd pass1) |} in
  pass_status (fst pass1) = Ok [false; true; false; true; false]
  /\ pass_status (fst pass2) = Ok [true; false; true; false; true].
Proof. split; vm_compute; reflexivity. Qed.

(** C5 (amended): the counter is the attribute [_count] of the function
    object [checkpoint_wrapper]; it survives from one [parallelize_llama]
    call to the next. A pass that starts with counter c0 wraps its k-th
    visited block (k from 0) iff N = 0 or (c0 + k + 1) mod N = 0, and leaves
    the counter at c0 plus the number of blocks. *)
Theorem C5_counter_persists (mesh : WorldMesh) (dims : ParallelDims)
  (job : JobConfig) (m : Model) (c : option nat) (k : nat) :
  (tp_enabled dims = false
   \/ (0 < wm_tp_size mesh /\ norm_type job <> "fused_rmsnorm")) ->
  dp_enabled dims = true ->
  (1 < wm_ndim mesh \/ wm_mesh_dim_names mesh = ["dp"]) ->
  mode (activation_checkpoint job) = "selective" ->
  isdigit (selective_ac_option (activation_checkpoint job)) = true ->
  exists m',
    parallelize_llama mesh dims job {| heap_model := m; ckpt_count := c |}
    = (Ok m', {| heap_model := m';
                 ckpt_count := match model_layers m with
                               | [] => c
                               | _ => Some (count0 c + List.length (model_layers m))
                               end |})
    /\ nth_error (model_layers m') k
       = option_map (fun b => fully_shard_block
            (if (py_int (selective_ac_option (activation_checkpoint job)) =? 0)
                || ((count0 c + S k)
                      mod py_int (selective_ac_option (activation_checkpoint job)) =? 0)
             then wrap PlainCkpt b else b))
            (nth_error (if tp_enabled dims
                        then map (tp_shrink (wm_tp_size mesh)) (model_layers m)
                        else model_layers m) k).
Proof.
  intros Htp Hdp Hmesh Hm Hd.
  assert (Hdn : (if 1 <? wm_ndim mesh then ["dp"] else wm_mesh_dim_names mesh) = ["dp"]).
  { destruct (Nat.ltb_spec 1 (wm_ndim mesh)); [reflexivity|]. destruct Hmesh; [lia|auto]. }
  unfold parallelize_llama. rewrite Hdp, Hdn.
  destruct (list_eq_dec string_dec ["dp"] ["dp"]) as [_|Hne]; [|congruence].
  destruct (tp_enabled dims) eqn:Etp.
  - destruct Htp as [Htp|[Hpos Hn]]; [discriminate|].
    apply String.eqb_neq in Hn. rewrite Hn.
    cbv [bind get_model put_model ret]. cbn [heap_model ckpt_count].
    rewrite (each_layer_thread _ _ (fun b w => tp_block_eq _ b w Hpos)).
    rewrite thread_tp. cbn [fst snd].
    rewrite (each_layer_thread _ _ (fun b w => dp_block_cadence _ b w Hm Hd)).
    cbn [heap_model ckpt_count model_layers with_layers].
    rewrite thread_cadence_count.
    assert (Hc : match map (tp_shrink (wm_tp_size mesh)) (model_layers m) with
                 | [] => c
                 | _ => Some (count0 c + List.length
                                (map (tp_shrink (wm_tp_size mesh)) (model_layers m)))
                 end
                 = match model_layers m with
                   | [] => c
                   | _ => Some (count0 c + List.length (model_layers m))
                   end).
    { destruct (model_layers m); [reflexivity|]. rewrite length_map. reflexivity. }
    rewrite Hc. eexists. split; [reflexivity|]. simpl. apply thread_cadence_nth.
  - cbv [bind get_model put_model ret]. cbn [heap_model ckpt_count].
    rewrite (each_layer_thread _ _ (fun b w => dp_block_cadence _ b w Hm Hd)).
    cbn [heap_model ckpt_count model_layers with_layers].
    rewrite thread_cadence_count.
    eexists. split; [reflexivity|]. simpl. apply thread_cadence_nth.
Qed.

Lemma C5_counter_persists_witness :
  exists m',
    parallelize_llama mesh_dp (dims_of 1 1 true) (job_of 8 16 "manual" "1f1b" cad2)
      {| heap_model := model5; ckpt_count := Some 5 |}
    = (Ok m', {| heap_model := m'; ckpt_count := Some 10 |}).
Proof.
  destruct (C5_counter_persists mesh_dp (dims_of 1 1 true)
              (job_of 8 16 "manual" "1f1b" cad2) model5 (Some 5) 0)
    as [m' [H _]]; [left; reflexivity | reflexivity | right; reflexivity
                   | reflexivity | reflexivity |].
  exists m'. exact H.
Defined.

(** * Further properties of the code *)

(** ** Stage layer names, per rank *)

Lemma in_layers_range (off n j : nat) :
  In (layers j) (map (fun i => layers (i + off)) (seq 0 n)) <-> off <= j < off + n.
Proof.
  rewrite in_map_iff. split.
  - intros [i [Hi Hin]]. injection Hi as <-. apply in_seq in Hin. lia.
  - intros Hj. exists (j - off). split; [f_equal; lia|]. apply in_seq. lia.
Qed.

Lemma name_in_layers_app (off n j : nat) (extra : list LayerName) :
  ~ In (layers j) extra ->
  name_in (layers j) (map (fun i => layers (i + off)) (seq 0 n) ++ extra)
  = (off <=? j) && (j <? off + n).
Proof.
  intros He. unfold name_in.
  destruct (in_dec LayerName_eq_dec (layers j) _) as [Hin|Hin];
    apply in_app_iff in Hin || (rewrite in_app_iff in Hin).
  - destruct Hin as [Hin|Hin]; [|contradiction].
    apply in_layers_range in Hin. symmetry. apply andb_true_iff.
    split; [apply Nat.leb_le | apply Nat.ltb_lt]; lia.
  - symmetry. apply not_true_iff_false. intros Hb.
    apply andb_true_iff in Hb as [H1 H2].
    apply Nat.leb_le in H1. apply Nat.ltb_lt in H2.
    apply Hin. left. apply in_layers_range. lia.
Qed.

Lemma map_layers_offset0 (n : nat) :
  map (fun i => layers (i + 0)) (seq 0 n) = map layers (seq 0 n).
Proof. apply map_ext. intros i. rewrite Nat.add_0_r. reflexivity. Qed.

(** X1: rank 0 gets the embedding followed by layers 0 .. L//pp - 1, and
    fails with [AssertionError] exactly when L < pp (it would own no
    layer). *)
Theorem stage_layer_names_rank0 (L pp pp_size : nat) :
  0 < pp ->
  stage_layer_names L pp pp_size 0
  = if L <? pp then Err AssertionError
    else Ok (tok_embeddings :: map layers (seq 0 (L / pp))).
Proof.
  intros Hpp. unfold stage_layer_names, py_floordiv.
  destruct (Nat.eqb_spec pp 0) as [|_]; [lia|]. simpl.
  rewrite Nat.mul_0_r, map_layers_offset0.
  destruct (Nat.ltb_spec L pp) as [Hlt|Hge].
  - rewrite Nat.div_small by exact Hlt. reflexivity.
  - assert (Hq : 1 <= L / pp) by (apply Nat.div_str_pos; lia).
    destruct (L / pp) as [|q] eqn:E; [lia|].
    reflexivity.
Qed.

Lemma stage_layer_names_rank0_witness :
  0 < 2 /\ stage_layer_names 8 2 2 0
           = Ok (tok_embeddings :: map layers (seq 0 4)).
Proof. split; [lia | apply (stage_layer_names_rank0 8 2 2); lia]. Defined.

(** X2: for two or more stages, the last rank passes its assertion
    ["layers.1" in this_stage_layer_names] only when there are exactly two
    stages of one layer each; in every other case it raises
    [AssertionError]. *)
Theorem stage_layer_names_last_rank (L pp pp_size : nat) :
  0 < pp -> 2 <= pp_size ->
  stage_layer_names L pp pp_size (pp_size - 1)
  = if (pp_size =? 2) && (L / pp =? 1) then Ok [layers 1; norm; output]
    else Err AssertionError.
Proof.
  intros Hpp H2. unfold stage_layer_names, py_floordiv.
  destruct (Nat.eqb_spec pp 0) as [|_]; [lia|]. simpl.
  destruct (Nat.eqb_spec (pp_size - 1) 0) as [|_]; [lia|].
  rewrite Nat.eqb_refl.
  rewrite name_in_layers_app by (simpl; intuition discriminate).
  set (q := L / pp).
  destruct (Nat.eqb_spec pp_size 2) as [Hs|Hs]; destruct (Nat.eqb_spec q 1) as [Hq|Hq].
  - rewrite Hs, Hq. reflexivity.
  - simpl. destruct q as [|[|q]]; [reflexivity | lia |].
    rewrite Hs. simpl. destruct (Nat.leb_spec (S (S q) * 1) 1); [lia|]. reflexivity.
  - rewrite Hq. simpl. rewrite Nat.add_0_r.
    destruct (Nat.leb_spec (pp_size - 1) 1); [lia|]. reflexivity.
  - simpl. destruct (Nat.leb_spec (q * (pp_size - 1)) 1) as [Hle|]; [|reflexivity].
    destruct (Nat.ltb_spec 1 (q * (pp_size - 1) + q)); [|reflexivity].
    exfalso. destruct q as [|[|q]]; [lia | lia | nia].
Qed.

Lemma stage_layer_names_last_rank_witness :
  (0 < 2 /\ 2 <= 2) /\ stage_layer_names 3 2 2 (2 - 1) = Ok [layers 1; norm; output].
Proof. split; [lia | apply (stage_layer_names_last_rank 3 2 2); lia]. Defined.

Lemma chunk_layers_map (L off n : nat) (extra : list LayerName) :
  off + n <= L -> chunk_layers L extra = Ok [] ->
  chunk_layers L (map (fun i => layers (i + off)) (seq 0 n) ++ extra) = Ok (seq off n).
Proof.
  revert off. induction n as [|n IH]; intros off Hb He; [exact He|].
  cbn [seq map app chunk_layers].
  destruct (Nat.ltb_spec (0 + off) L) as [_|]; [|lia].
  rewrite <- seq_shift, map_map.
  rewrite (map_ext (fun x => layers (S x + off)) (fun i => layers (i + S off)))
    by (intros; f_equal; lia).
  rewrite IH by (assumption || lia). reflexivity.
Qed.

Lemma name_in_not_layer (x : LayerName) (off n : nat) (extra : list LayerName) :
  (forall j, x <> layers j) ->
  name_in x (map (fun i => layers (i + off)) (seq 0 n) ++ extra) = name_in x extra.
Proof.
  intros Hx. unfold name_in.
  destruct (in_dec LayerName_eq_dec x (_ ++ extra)) as [Hin|Hin];
  destruct (in_dec LayerName_eq_dec x extra) as [Hin'|Hin']; auto.
  - exfalso. apply in_app_iff in Hin as [Hin|Hin]; [|contradiction].
    apply in_map_iff in Hin as [i [Hi _]]. apply (Hx (i + off)). auto.
  - exfalso. apply Hin. apply in_app_iff. auto.
Qed.

Lemma name_in_cons (x y : LayerName) (l : list LayerName) :
  name_in x (y :: l) = if LayerName_eq_dec y x then true else name_in x l.
Proof.
  unfold name_in. simpl.
  destruct (LayerName_eq_dec y x); [reflexivity|].
  destruct (in_dec LayerName_eq_dec x l); reflexivity.
Qed.

Lemma stage_layers_le (L pp r : nat) :
  0 < pp -> r < pp -> L / pp * r + L / pp <= L.
Proof.
  intros Hpp Hr. pose proof (Nat.Div0.mul_div_le L pp). nia.
Qed.

(** X3: when rank [r < pp] gets its names, [TransformerChunk] holds the
    layers [r * (L//pp)] .. [(r+1) * (L//pp) - 1] in that order, the
    embedding iff [r = 0], and norm and output iff [r] is the last rank
    and not rank 0. *)
Theorem stage_chunk_contents (L pp r : nat) (names : list LayerName) :
  r < pp -> stage_layer_names L pp pp r = Ok names ->
  make_TransformerChunk L names 2048
  = Ok {| tc_tok_embeddings := r =? 0;
          tc_layers := seq (L / pp * r) (L / pp);
          tc_norm := negb (r =? 0) && (r =? pp - 1);
          tc_output := negb (r =? 0) && (r =? pp - 1);
          tc_input_seqlen := 2048 |}.
Proof.
  intros Hr H. pose proof (stage_layers_le L pp r ltac:(lia) Hr) as Hb.
  unfold stage_layer_names, py_floordiv in H.
  destruct (Nat.eqb_spec pp 0) as [|_]; [lia|]. simpl in H.
  unfold make_TransformerChunk.
  destruct (Nat.eqb_spec r 0) as [->|Hr0].
  - destruct (name_in _ _); [|discriminate]. injection H as <-.
    cbn [chunk_layers].
    rewrite <- (app_nil_r (map _ (seq 0 (L / pp)))).
    rewrite chunk_layers_map by (reflexivity || lia). simpl.
    rewrite !name_in_cons, !name_in_not_layer by discriminate. reflexivity.
  - destruct (Nat.eqb_spec r (pp - 1)) as [Hl|Hl].
    + destruct (name_in _ _); [|discriminate]. injection H as <-.
      rewrite chunk_layers_map by (reflexivity || lia). simpl.
      rewrite !name_in_not_layer by discriminate. reflexivity.
    + injection H as <-.
      rewrite <- (app_nil_r (map _ (seq 0 (L / pp)))).
      rewrite chunk_layers_map by (reflexivity || lia). simpl.
      rewrite !name_in_not_layer by discriminate. reflexivity.
Qed.

Lemma stage_chunk_contents_witness :
  (0 < 3 /\ stage_layer_names 6 3 3 1 = Ok [layers 2; layers 3])
  /\ make_TransformerChunk 6 [layers 2; layers 3] 2048
     = Ok {| tc_tok_embeddings := false; tc_layers := [2; 3]; tc_norm := false;
             tc_output := false; tc_input_seqlen := 2048 |}.
Proof.
  split; [split; [lia | vm_compute; reflexivity] |].
  apply (stage_chunk_contents 6 3 1); [lia | vm_compute; reflexivity].
Defined.

(** X4: a stage that gets its names owns exactly the layers of its range
    [r * (L//pp), (r+1) * (L//pp)); so the last [L mod pp] layers, from
    [pp * (L//pp)] on, belong to no stage of ranks below [pp]. *)
Theorem stage_layer_names_range (L pp pp_size r j : nat) (names : list LayerName) :
  stage_layer_names L pp pp_size r = Ok names ->
  (In (layers j) names <-> L / pp * r <= j < L / pp * r + L / pp)
  /\ (r < pp -> pp * (L / pp) <= j -> ~ In (layers j) names).
Proof.
  intros H.
  assert (Hiff : In (layers j) names <-> L / pp * r <= j < L / pp * r + L / pp).
  { unfold stage_layer_names, py_floordiv in H.
    destruct (Nat.eqb_spec pp 0) as [|_]; [discriminate|]. simpl in H.
    destruct (r =? 0); [|destruct (r =? pp_size - 1)];
      [destruct (name_in _ _); [|discriminate] ..|]; injection H as <-.
    - rewrite <- in_layers_range. simpl. intuition discriminate.
    - rewrite in_app_iff, <- in_layers_range. simpl. intuition discriminate.
    - apply in_layers_range. }
  split; [exact Hiff|]. intros Hr Hj Hin. apply Hiff in Hin. nia.
Qed.

Lemma stage_layer_names_range_witness :
  stage_layer_names 7 3 3 1 = Ok [layers 2; layers 3]
  /\ (1 < 3 -> 3 * (7 / 3) <= 6 -> ~ In (layers 6) [layers 2; layers 3]).
Proof.
  assert (H : stage_layer_names 7 3 3 1 = Ok [layers 2; layers 3])
    by (vm_compute; reflexivity).
  split; [exact H | exact (proj2 (stage_layer_names_range 7 3 3 1 6 _ H))].
Defined.

(** ** Tracer split points *)

Lemma name_in_In (x : LayerName) (l : list LayerName) : name_in x l = true <-> In x l.
Proof. unfold name_in. destruct (in_dec LayerName_eq_dec x l); split; auto; discriminate. Qed.

Lemma dict_fold_nodup (l acc : list LayerName) :
  NoDup (acc ++ l) -> fold_left dict_insert l acc = acc ++ l.
Proof.
  revert acc. induction l as [|a l IH]; intros acc H; simpl.
  - rewrite app_nil_r. reflexivity.
  - unfold dict_insert at 2.
    destruct (name_in a acc) eqn:E.
    + apply name_in_In in E. exfalso. apply (NoDup_remove_2 acc l a H).
      apply in_or_app. left. exact E.
    + rewrite IH; [rewrite <- app_assoc; reflexivity|].
      rewrite <- app_assoc. exact H.
Qed.

Lemma dict_fold_repeat (x : LayerName) (n : nat) :
  fold_left dict_insert (repeat x n) [x] = [x].
Proof.
  induction n as [|n IH]; simpl; [reflexivity|].
  unfold dict_insert at 2. replace (name_in x [x]) with true; [exact IH|].
  symmetry. apply name_in_In. left. reflexivity.
Qed.

Lemma NoDup_map_inj {A B : Type} (f : A -> B) (l : list A) :
  (forall x y, f x = f y -> x = y) -> NoDup l -> NoDup (map f l).
Proof.
  intros Hf Hl. induction Hl as [|a l Ha Hl IH]; simpl; constructor; auto.
  intros Hin. apply in_map_iff in Hin. destruct Hin as [y [Hy Hin]].
  apply Hf in Hy. subst y. contradiction.
Qed.

Lemma tracer_split_spec_eq (L : nat) (mesh : PPMesh) (dims : ParallelDims)
  (job : JobConfig) (v : nat) :
  pp_enabled dims = true -> norm_type job <> "fused_rmsnorm" -> 0 < pd_pp dims ->
  apply_pipeline_parallelism_tracer L mesh dims job v
  = Ok {| ts_stage_index := pp_local_rank mesh;
          ts_split_spec :=
            if 0 <? L / pd_pp dims
            then map (fun r => layers (r * (L / pd_pp dims))) (seq 1 (pd_pp dims - 1))
            else if 2 <=? pd_pp dims then [layers 0] else [] |}.
Proof.
  intros H Hn Hpp. apply String.eqb_neq in Hn.
  unfold apply_pipeline_parallelism_tracer, py_floordiv. rewrite H, Hn.
  destruct (Nat.eqb_spec (pd_pp dims) 0) as [|_]; [lia|]. cbn [negb rbind].
  do 2 f_equal. unfold dict_of_keys.
  destruct (L / pd_pp dims) as [|q] eqn:Eq; cbn [Nat.ltb Nat.leb].
  - rewrite (map_ext _ (fun _ => layers 0)) by (intros; rewrite Nat.mul_0_r; reflexivity).
    rewrite map_const, length_seq.
    destruct (pd_pp dims) as [|[|pp]] eqn:Ep; [lia | reflexivity |].
    replace (S (S pp) - 1) with (S pp) by lia. simpl.
    apply dict_fold_repeat.
  - replace (0 <? S q) with true by reflexivity.
    apply (dict_fold_nodup _ []). simpl.
    apply NoDup_map_inj; [|apply seq_NoDup].
    intros x y Hxy. injection Hxy as Hxy. nia.
Qed.

(** X5: the tracer path first asserts that pipelining is enabled, then
    refuses the fused_rmsnorm norm type with [NotImplementedError]; past
    those checks (with [pp > 0]) it returns the stage of its own rank, split
    before the keys [layers.(r * (L//pp))] for [r = 1 .. pp-1] of the dict
    [split_spec]: pp-1 distinct split points when [L//pp > 0], and the single
    key [layers.0] when [L//pp = 0] and [pp >= 2], the repeated keys
    collapsing into one. *)
Theorem tracer_checks_and_split_spec (L : nat) (mesh : PPMesh) (dims : ParallelDims)
  (job : JobConfig) (v : nat) :
  (pp_enabled dims = false ->
   apply_pipeline_parallelism_tracer L mesh dims job v = Err AssertionError)
  /\ (pp_enabled dims = true -> norm_type job = "fused_rmsnorm" ->
      apply_pipeline_parallelism_tracer L mesh dims job v = Err NotImplementedError)
  /\ (pp_enabled dims = true -> norm_type job <> "fused_rmsnorm" -> 0 < pd_pp dims ->
      exists ts, apply_pipeline_parallelism_tracer L mesh dims job v = Ok ts
        /\ ts_stage_index ts = pp_local_rank mesh
        /\ (0 < L / pd_pp dims ->
            ts_split_spec ts
            = map (fun r => layers (r * (L / pd_pp dims))) (seq 1 (pd_pp dims - 1))
            /\ List.length (ts_split_spec ts) = pd_pp dims - 1)
        /\ (L / pd_pp dims = 0 -> 2 <= pd_pp dims -> ts_split_spec ts = [layers 0])).
Proof.
  split; [intros H; unfold apply_pipeline_parallelism_tracer; rewrite H; reflexivity|].
  split; [intros H Hn; unfold apply_pipeline_parallelism_tracer; rewrite H, Hn; reflexivity|].
  intros H Hn Hpp. rewrite (tracer_split_spec_eq L mesh dims job v H Hn Hpp).
  eexists. split; [reflexivity|]. cbn [ts_stage_index ts_split_spec].
  split; [reflexivity|]. split.
  - intros Hq. apply Nat.ltb_lt in Hq. rewrite Hq.
    split; [reflexivity|]. rewrite length_map, length_seq. reflexivity.
  - intros Hq H2. rewrite Hq. apply Nat.leb_le in H2. rewrite H2. reflexivity.
Qed.

Lemma tracer_checks_and_split_spec_witness :
  exists ts,
    apply_pipeline_parallelism_tracer 2 {| pp_local_rank := 1; pp_mesh_size := 3 |}
      (dims_of 3 1 false) (job_of 8 16 "tracer" "1f1b" no_ac) 100 = Ok ts
    /\ ts_split_spec ts = [layers 0].
Proof.
  destruct (tracer_checks_and_split_spec 2 {| pp_local_rank := 1; pp_mesh_size := 3 |}
              (dims_of 3 1 false) (job_of 8 16 "tracer" "1f1b" no_ac) 100)
    as [_ [_ H]].
  destruct H as [ts [H1 [_ [_ H2]]]]; [reflexivity | discriminate | simpl; lia |].
  exists ts. split; [exact H1 | apply H2; simpl; lia].
Defined.

(** X6: when both paths succeed with non-empty stages ([L//pp > 0]), the
    tracer's [r]-th split point ([1 <= r < pp]) is the first layer the
    manual partitioner gives rank [r]: both paths cut the layers at the same
    places. *)
Theorem tracer_split_matches_manual (L : nat) (mesh : PPMesh) (dims : ParallelDims)
  (job : JobConfig) (v pp_size r : nat) (ts : TracerStage) (names : list LayerName) :
  1 <= r < pd_pp dims -> 0 < L / pd_pp dims ->
  apply_pipeline_parallelism_tracer L mesh dims job v = Ok ts ->
  stage_layer_names L (pd_pp dims) pp_size r = Ok names ->
  nth_error (ts_split_spec ts) (r - 1) = hd_error names
  /\ hd_error names = Some (layers (L / pd_pp dims * r)).
Proof.
  intros Hr Hq Ht H.
  destruct (pp_enabled dims) eqn:Ep;
    [|unfold apply_pipeline_parallelism_tracer in Ht; rewrite Ep in Ht; discriminate].
  destruct (String.eqb_spec (norm_type job) "fused_rmsnorm") as [Ef|Ef].
  { unfold apply_pipeline_parallelism_tracer in Ht. rewrite Ep, Ef in Ht. discriminate. }
  rewrite (tracer_split_spec_eq L mesh dims job v Ep Ef ltac:(lia)) in Ht.
  injection Ht as <-. cbn [ts_split_spec].
  assert (Hn : hd_error names = Some (layers (L / pd_pp dims * r))).
  { unfold stage_layer_names, py_floordiv in H.
    destruct (Nat.eqb_spec (pd_pp dims) 0) as [|_]; [lia|]. simpl in H.
    destruct (Nat.eqb_spec r 0) as [|_]; [lia|].
    destruct (L / pd_pp dims) as [|q] eqn:E; [lia|].
    destruct (r =? pp_size - 1); [destruct (name_in _ _); [|discriminate]|];
      injection H as <-; reflexivity. }
  rewrite Hn. split; [|reflexivity].
  replace (0 <? L / pd_pp dims) with true by (symmetry; apply Nat.ltb_lt; exact Hq).
  rewrite nth_error_map, nth_error_seq.
  destruct (Nat.ltb_spec (r - 1) (pd_pp dims - 1)); [|lia]. simpl.
  f_equal. f_equal. nia.
Qed.

Lemma tracer_split_matches_manual_witness :
  nth_error [layers 2; layers 4; layers 6] (2 - 1) = hd_error [layers 4; layers 5]
  /\ hd_error [layers 4; layers 5] = Some (layers (8 / 4 * 2)).
Proof.
  apply (tracer_split_matches_manual 8 {| pp_local_rank := 0; pp_mesh_size := 4 |}
           (dims_of 4 1 false) (job_of 8 16 "tracer" "1f1b" no_ac) 100 4 2
           {| ts_stage_index := 0; ts_split_spec := [layers 2; layers 4; layers 6] |}
           [layers 4; layers 5]);
    [simpl; lia | simpl; lia | vm_compute; reflexivity | vm_compute; reflexivity].
Defined.

(** ** Checkpoint wrapper modes *)

(** X7: the per-op and full modes wrap the block (with and without the
    selective [context_fn]) and leave the visit counter alone; any other
    mode, or an ASCII selective option that is neither "op" nor a digit
    string, raises [NotImplementedError], again with the counter
    unchanged. *)
Theorem checkpoint_wrapper_modes (b : Block) (ac : ACConfig) (w : World) :
  (mode ac = "selective" -> selective_ac_option ac = "op" ->
   checkpoint_wrapper b ac w = (Ok (wrap SelectiveOpCkpt b), w))
  /\ (mode ac = "full" -> checkpoint_wrapper b ac w = (Ok (wrap PlainCkpt b), w))
  /\ (mode ac <> "selective" -> mode ac <> "full" ->
      checkpoint_wrapper b ac w = (Err NotImplementedError, w))
  /\ (mode ac = "selective" -> selective_ac_option ac <> "op" ->
      ascii7 (selective_ac_option ac) = true ->
      isdigit (selective_ac_option ac) = false ->
      checkpoint_wrapper b ac w = (Err NotImplementedError, w)).
Proof.
  unfold checkpoint_wrapper. split; [|split; [|split]].
  - intros Hm Ho. rewrite Hm, Ho. reflexivity.
  - intros Hm. rewrite Hm. reflexivity.
  - intros H1 H2. apply String.eqb_neq in H1, H2. rewrite H1, H2. reflexivity.
  - intros Hm Ho _ Hd. apply String.eqb_neq in Ho. rewrite Hm, Ho, Hd. reflexivity.
Qed.

Lemma checkpoint_wrapper_modes_witness :
  checkpoint_wrapper (blk 8 8) {| mode := "selective"; selective_ac_option := "x" |}
    {| heap_model := model5; ckpt_count := Some 3 |}
  = (Err NotImplementedError, {| heap_model := model5; ckpt_count := Some 3 |}).
Proof.
  apply (checkpoint_wrapper_modes (blk 8 8) {| mode := "selective"; selective_ac_option := "x" |}
           {| heap_model := model5; ckpt_count := Some 3 |});
    [reflexivity | discriminate | reflexivity | reflexivity].
Defined.

(** ** Per-mode matrix-multiply counters *)

Lemma string_length_app (a s : string) :
  String.length (a ++ s) = String.length a + String.length s.
Proof. induction a as [|c a IH]; simpl; auto. Qed.

Lemma string_app_inj_l (a b s : string) : (a ++ s)%string = (b ++ s)%string -> a = b.
Proof.
  intros H. assert (Hl : String.length a = String.length b).
  { apply (f_equal String.length) in H. rewrite !string_length_app in H. lia. }
  revert b H Hl. induction a as [|c a IH]; intros [|c' b] H Hl; simpl in *;
    try discriminate; auto.
  injection H as -> H. f_equal. apply IH; auto.
Qed.

Lemma run_policy_snoc_modes (meta : Meta) (calls : list (string * Op)) (m : string) (f : Op) :
  run_policy meta (calls ++ [(m, f)])
  = run_policy meta calls
    ++ [spec_op_saved (meta (m ++ "_mm_count")%string
          + List.length (filter (fun p => String.eqb (fst p) m && op_eqb (snd p) aten_mm)
                                (calls ++ [(m, f)]))) f].
Proof.
  revert meta. induction calls as [|[m' g] calls IH]; intros meta.
  - cbn [app run_policy filter fst snd]. unfold custom_policy.
    rewrite mod2_eqb_even, String.eqb_refl.
    unfold op_eqb, op_in. destruct f; simpl; try reflexivity.
    unfold meta_set. rewrite String.eqb_refl, Nat.add_comm. reflexivity.
  - cbn [app run_policy].
    destruct (custom_policy meta m' g) as [saved meta'] eqn:E.
    rewrite IH. cbn [app]. f_equal. f_equal. f_equal.
    unfold custom_policy in E. injection E as _ <-.
    cbn [filter fst snd].
    unfold op_eqb at 1 3. destruct (Op_eq_dec g aten_mm) as [->|Hg].
    + unfold meta_set. destruct (String.eqb_spec m' m) as [->|Hm].
      * rewrite String.eqb_refl. simpl. f_equal. lia.
      * destruct (String.eqb_spec (m ++ "_mm_count") (m' ++ "_mm_count")) as [Hk|_].
        -- apply string_app_inj_l in Hk. congruence.
        -- simpl. reflexivity.
    + rewrite andb_false_r. reflexivity.
Qed.

(** X8: the matrix-multiply count is kept per mode (forward and
    recomputation have separate [meta] keys): in any interleaving, the
    decision for an operation of mode [m] is [spec_op_saved] of the number of
    mm calls of mode [m] so far, this one included. *)
Theorem selective_op_policy_per_mode (calls : list (string * Op)) (m : string) (f : Op) :
  run_policy meta_empty (calls ++ [(m, f)])
  = run_policy meta_empty calls
    ++ [spec_op_saved
          (List.length (filter (fun p => String.eqb (fst p) m && op_eqb (snd p) aten_mm)
                               (calls ++ [(m, f)]))) f].
Proof. apply run_policy_snoc_modes. Qed.

(** ** The two phases of [parallelize_llama] *)

Lemma parallelize_llama_tp_phase (mesh : WorldMesh) (dims : ParallelDims)
  (job : JobConfig) (m : Model) (c : option nat) :
  tp_enabled dims = true -> 0 < wm_tp_size mesh ->
  norm_type job <> "fused_rmsnorm" ->
  parallelize_llama mesh dims job {| heap_model := m; ckpt_count := c |}
  = parallelize_llama mesh (dims_no_tp dims) job
      {| heap_model := tp_applied (wm_tp_size mesh) m; ckpt_count := c |}.
Proof.
  intros Htp Hpos Hn. apply String.eqb_neq in Hn.
  unfold parallelize_llama. rewrite Htp, Hn. cbn [dims_no_tp tp_enabled dp_enabled].
  unfold bind at 1 3, bind at 1, get_model, put_model. cbn [heap_model ckpt_count].
  rewrite (each_layer_thread _ _ (fun b w => tp_block_eq _ b w Hpos)).
  rewrite thread_tp. reflexivity.
Qed.

(** X9: with tensor parallelism on (a positive tp size, no fused RMSNorm),
    [parallelize_llama] is its TP pass followed by the rest: the same call
    with TP off, on the model whose root is TP-sharded and whose blocks have
    their head counts divided; the TP pass leaves the checkpoint counter
    alone. *)
Theorem parallelize_llama_tp_prepass (mesh : WorldMesh) (dims : ParallelDims)
  (job : JobConfig) (m : Model) (c : option nat) :
  tp_enabled dims = true -> 0 < wm_tp_size mesh ->
  norm_type job <> "fused_rmsnorm" ->
  parallelize_llama mesh dims job {| heap_model := m; ckpt_count := c |}
  = parallelize_llama mesh (dims_no_tp dims) job
      {| heap_model := tp_applied (wm_tp_size mesh) m; ckpt_count := c |}.
Proof.
  intros Htp Hpos Hn. apply parallelize_llama_tp_phase; assumption.
Qed.

Lemma parallelize_llama_tp_prepass_witness :
  parallelize_llama mesh_tp2 (dims_of 1 2 true) (job_of 8 16 "manual" "1f1b" cad2)
    {| heap_model := model5; ckpt_count := Some 4 |}
  = parallelize_llama mesh_tp2 (dims_no_tp (dims_of 1 2 true)) (job_of 8 16 "manual" "1f1b" cad2)
      {| heap_model := tp_applied 2 model5; ckpt_count := Some 4 |}.
Proof.
  apply (parallelize_llama_tp_prepass mesh_tp2 (dims_of 1 2 true)
           (job_of 8 16 "manual" "1f1b" cad2) model5 (Some 4));
    [reflexivity | simpl; lia | discriminate].
Defined.

Lemma thread_static (f : Block -> Block) (c : option nat) (bs : list Block) :
  thread (fun c b => (f b, c)) c bs = (map f bs, c).
Proof.
  induction bs as [|b bs IH]; simpl; [reflexivity|]. rewrite IH. reflexivity.
Qed.

Lemma dp_block_static (ac : ACConfig) (g : Block -> Block) (b : Block) (w : World) :
  (mode ac = "full" /\ g = wrap PlainCkpt
   \/ mode ac = "selective" /\ selective_ac_option ac = "op" /\ g = wrap SelectiveOpCkpt
   \/ mode ac <> "full" /\ mode ac <> "selective" /\ g = (fun b => b)) ->
  dp_block ac b w =
  (Ok (fst ((fun c b => (fully_shard_block (g b), c)) (ckpt_count w) b)),
   {| heap_model := heap_model w;
      ckpt_count := snd ((fun c b => (fully_shard_block (g b), c)) (ckpt_count w) b) |}).
Proof.
  intros Hg. cbn [fst snd]. rewrite world_eta. unfold dp_block, checkpoint_wrapper.
  destruct Hg as [[Hm ->]|[[Hm [Ho ->]]|[Hm1 [Hm2 ->]]]].
  - rewrite Hm. reflexivity.
  - rewrite Hm, Ho. reflexivity.
  - apply String.eqb_neq in Hm1, Hm2. rewrite Hm1, Hm2. reflexivity.
Qed.

Lemma dp_names_ok (mesh : WorldMesh) :
  (1 < wm_ndim mesh \/ wm_mesh_dim_names mesh = ["dp"]) ->
  (if 1 <? wm_ndim mesh then ["dp"] else wm_mesh_dim_names mesh) = ["dp"].
Proof.
  intros Hmesh. destruct (Nat.ltb_spec 1 (wm_ndim mesh)); [reflexivity|].
  destruct Hmesh; [lia|auto].
Qed.

Lemma parallelize_llama_dp_thread (mesh : WorldMesh) (dims : ParallelDims)
  (job : JobConfig) (m : Model) (c : option nat)
  (h : option nat -> Block -> Block * option nat) :
  (forall b w, dp_block (activation_checkpoint job) b w =
     (Ok (fst (h (ckpt_count w) b)),
      {| heap_model := heap_model w; ckpt_count := snd (h (ckpt_count w) b) |})) ->
  tp_enabled dims = false -> dp_enabled dims = true ->
  (1 < wm_ndim mesh \/ wm_mesh_dim_names mesh = ["dp"]) ->
  parallelize_llama mesh dims job {| heap_model := m; ckpt_count := c |}
  = (Ok {| root_tp := root_tp m; model_layers := fst (thread h c (model_layers m));
           root_fsdp := true |},
     {| heap_model := {| root_tp := root_tp m;
                         model_layers := fst (thread h c (model_layers m));
                         root_fsdp := true |};
        ckpt_count := snd (thread h c (model_layers m)) |}).
Proof.
  intros Hbody Htp Hdp Hmesh.
  unfold parallelize_llama. rewrite Htp, Hdp, (dp_names_ok _ Hmesh).
  destruct (list_eq_dec string_dec ["dp"] ["dp"]) as [_|Hne]; [|congruence].
  cbv [bind get_model put_model ret]. cbn [heap_model ckpt_count].
  rewrite (each_layer_thread _ _ Hbody). reflexivity.
Qed.

Lemma each_layer_first_err (body : Block -> M Block) (m : Model) (c : option nat)
  (b : Block) (bs : list Block) (e : PyError) (w' : World) :
  model_layers m = b :: bs ->
  body b {| heap_model := m; ckpt_count := c |} = (Err e, w') ->
  each_layer body {| heap_model := m; ckpt_count := c |} = (Err e, w').
Proof.
  intros Hl Hb. unfold each_layer, bind at 1, get_model. cbn [heap_model].
  rewrite Hl. cbn [List.length seq for_layers].
  unfold bind at 1, get_layer, bind at 1, get_model. cbn [heap_model].
  rewrite Hl. cbn [nth_error ret]. unfold bind at 1. rewrite Hb. reflexivity.
Qed.

Lemma dp_block_invalid (ac : ACConfig) (b : Block) (w : World) :
  mode ac = "selective" -> selective_ac_option ac <> "op" ->
  isdigit (selective_ac_option ac) = false ->
  dp_block ac b w = (Err NotImplementedError, w).
Proof.
  intros Hm Ho Hd. apply String.eqb_neq in Ho.
  unfold dp_block, checkpoint_wrapper. rewrite Hm, Ho, Hd. reflexivity.
Qed.

Lemma div_succ_step (x N : nat) :
  0 < N -> (x + 1) / N = x / N + (if (x + 1) mod N =? 0 then 1 else 0).
Proof.
  intros HN.
  pose proof (Nat.div_mod_eq x N) as E1. pose proof (Nat.mod_upper_bound x N) as B1.
  pose proof (Nat.div_mod_eq (x + 1) N) as E2.
  pose proof (Nat.mod_upper_bound (x + 1) N) as B2.
  destruct (Nat.eqb_spec ((x + 1) mod N) 0) as [H0|H0]; nia.
Qed.

Lemma thread_cadence_wrapped (N : nat) (bs : list Block) (c : option nat) :
  0 < N -> Forall (fun b => ckpt b = []) bs ->
  count_occ bool_dec
    (map (fun b => match ckpt b with [] => false | _ => true end)
         (fst (thread (cadence_step N) c bs))) true
  = (count0 c + List.length bs) / N - count0 c / N.
Proof.
  intros HN Hf. revert c. induction Hf as [|b bs Hb Hf IH]; intros c.
  - simpl. rewrite Nat.add_0_r, Nat.sub_diag. reflexivity.
  - rewrite thread_cons, cadence_step_snd. cbn [map fst count_occ].
    rewrite IH. cbn [count0 List.length].
    pose proof (div_succ_step (count0 c) N HN) as Hs.
    pose proof (Nat.Div0.div_le_mono (count0 c + 1) (count0 c + 1 + List.length bs) N)
      as Hm.
    replace (count0 c + S (List.length bs)) with (count0 c + 1 + List.length bs) by lia.
    unfold cadence_step. cbn [fst fully_shard_block ckpt].
    change (match c with Some k => k | None => 0 end) with (count0 c).
    destruct (Nat.eqb_spec N 0) as [|_]; [lia|]. cbn [orb].
    destruct ((count0 c + 1) mod N =? 0); cbn [wrap ckpt]; rewrite ?Hb.
    + destruct (bool_dec true true) as [_|]; [lia | congruence].
    + destruct (bool_dec false true) as [|_]; [discriminate | lia].
Qed.

(** X10: with data parallelism on, a valid mesh, and a checkpoint mode
    without a counter (full, per-op selective, or any mode outside
    full/selective), [parallelize_llama] returns the model it mutated: every
    block is [fully_shard]ed after being wrapped as the mode dictates (not at
    all in the last case), the root is [fully_shard]ed, the blocks seen by
    this phase are the TP-processed ones when TP is on, and the checkpoint
    counter is untouched. *)
Theorem parallelize_llama_static_ac (mesh : WorldMesh) (dims : ParallelDims)
  (job : JobConfig) (m : Model) (c : option nat) (g : Block -> Block) :
  (tp_enabled dims = false
   \/ (0 < wm_tp_size mesh /\ norm_type job <> "fused_rmsnorm")) ->
  dp_enabled dims = true ->
  (1 < wm_ndim mesh \/ wm_mesh_dim_names mesh = ["dp"]) ->
  (mode (activation_checkpoint job) = "full" /\ g = wrap PlainCkpt
   \/ mode (activation_checkpoint job) = "selective"
      /\ selective_ac_option (activation_checkpoint job) = "op"
      /\ g = wrap SelectiveOpCkpt
   \/ mode (activation_checkpoint job) <> "full"
      /\ mode (activation_checkpoint job) <> "selective" /\ g = (fun b => b)) ->
  let m0 := if tp_enabled dims then tp_applied (wm_tp_size mesh) m else m in
  parallelize_llama mesh dims job {| heap_model := m; ckpt_count := c |}
  = (Ok (dp_applied g m0), {| heap_model := dp_applied g m0; ckpt_count := c |}).
Proof.
  intros Htp Hdp Hmesh Hg m0. subst m0.
  pose proof (fun b w => dp_block_static _ g b w Hg) as Hbody.
  destruct (tp_enabled dims) eqn:Etp.
  - destruct Htp as [Htp|[Hpos Hn]]; [discriminate|].
    rewrite (parallelize_llama_tp_phase _ _ _ _ _ Etp Hpos Hn).
    rewrite (parallelize_llama_dp_thread _ _ _ _ _ _ Hbody); auto.
    rewrite thread_static. reflexivity.
  - rewrite (parallelize_llama_dp_thread _ _ _ _ _ _ Hbody); auto.
    rewrite thread_static. reflexivity.
Qed.

Lemma parallelize_llama_static_ac_witness :
  parallelize_llama mesh_tp2 (dims_of 1 2 true)
    (job_of 8 16 "manual" "1f1b" {| mode := "full"; selective_ac_option := "op" |})
    {| heap_model := model5; ckpt_count := Some 7 |}
  = (Ok (dp_applied (wrap PlainCkpt) (tp_applied 2 model5)),
     {| heap_model := dp_applied (wrap PlainCkpt) (tp_applied 2 model5);
        ckpt_count := Some 7 |}).
Proof.
  apply (parallelize_llama_static_ac mesh_tp2 (dims_of 1 2 true)
           (job_of 8 16 "manual" "1f1b" {| mode := "full"; selective_ac_option := "op" |})
           model5 (Some 7) (wrap PlainCkpt)).
  - right. split; [simpl; lia | discriminate].
  - reflexivity.
  - right. reflexivity.
  - left. split; reflexivity.
Defined.

(** X11: in cadence mode N > 0 on blocks that carry no wrapper yet, the
    number of blocks [parallelize_llama] wraps is the number of multiples
    of N in (c0, c0 + n], that is (c0 + n) / N - c0 / N, where c0 is the
    counter on entry and n the number of blocks. *)
Theorem parallelize_llama_cadence_count (mesh : WorldMesh) (dims : ParallelDims)
  (job : JobConfig) (m : Model) (c : option nat) :
  (tp_enabled dims = false
   \/ (0 < wm_tp_size mesh /\ norm_type job <> "fused_rmsnorm")) ->
  dp_enabled dims = true ->
  (1 < wm_ndim mesh \/ wm_mesh_dim_names mesh = ["dp"]) ->
  mode (activation_checkpoint job) = "selective" ->
  isdigit (selective_ac_option (activation_checkpoint job)) = true ->
  0 < py_int (selective_ac_option (activation_checkpoint job)) ->
  Forall (fun b => ckpt b = []) (model_layers m) ->
  exists m',
    parallelize_llama mesh dims job {| heap_model := m; ckpt_count := c |}
    = (Ok m', {| heap_model := m'; ckpt_count := ckpt_count (snd
         (parallelize_llama mesh dims job {| heap_model := m; ckpt_count := c |})) |})
    /\ count_occ bool_dec (wrapped_status m') true
       = (count0 c + List.length (model_layers m))
           / py_int (selective_ac_option (activation_checkpoint job))
         - count0 c / py_int (selective_ac_option (activation_checkpoint job)).
Proof.
  intros Htp Hdp Hmesh Hm Hd HN Hf.
  pose proof (fun b w => dp_block_cadence _ b w Hm Hd) as Hbody.
  destruct (tp_enabled dims) eqn:Etp.
  - destruct Htp as [Htp|[Hpos Hn]]; [discriminate|].
    rewrite (parallelize_llama_tp_phase _ _ _ _ _ Etp Hpos Hn).
    rewrite (parallelize_llama_dp_thread _ _ _ _ _ _ Hbody); auto.
    eexists. split; [reflexivity|]. unfold wrapped_status. cbn [model_layers tp_applied].
    rewrite thread_cadence_wrapped, length_map; auto.
    apply Forall_map. eapply Forall_impl; [|exact Hf]. intros b Hb. exact Hb.
  - rewrite (parallelize_llama_dp_thread _ _ _ _ _ _ Hbody); auto.
    eexists. split; [reflexivity|]. unfold wrapped_status. cbn [model_layers].
    apply thread_cadence_wrapped; auto.
Qed.

Lemma parallelize_llama_cadence_count_witness :
  exists m',
    parallelize_llama mesh_dp (dims_of 1 1 true) (job_of 8 16 "manual" "1f1b" cad2)
      {| heap_model := model5; ckpt_count := Some 1 |}
    = (Ok m', {| heap_model := m'; ckpt_count := Some 6 |})
    /\ count_occ bool_dec (wrapped_status m') true = 3.
Proof.
  destruct (parallelize_llama_cadence_count mesh_dp (dims_of 1 1 true)
              (job_of 8 16 "manual" "1f1b" cad2) model5 (Some 1))
    as [m' [H1 H2]]; [left; reflexivity | reflexivity | right; reflexivity
                     | reflexivity | reflexivity | vm_compute; lia
                     | repeat constructor |].
  exists m'. rewrite H1 in *. split; [reflexivity | exact H2].
Defined.

Lemma each_layer_nil (body : Block -> M Block) (m : Model) (c : option nat) :
  model_layers m = [] ->
  each_layer body {| heap_model := m; ckpt_count := c |}
  = (Ok tt, {| heap_model := m; ckpt_count := c |}).
Proof. intros Hl. unfold each_layer, bind, get_model. cbn [heap_model]. rewrite Hl. reflexivity. Qed.

(** X12: an invalid ASCII selective option (neither "op" nor a digit
    string) makes the data-parallel loop raise [NotImplementedError] at the
    first block, before any block is wrapped or sharded; what the TP pass
    already did to the model stays done. With no blocks the loop body never
    runs: nothing is raised and the root is sharded as usual. *)
Theorem parallelize_llama_invalid_ac (mesh : WorldMesh) (dims : ParallelDims)
  (job : JobConfig) (m : Model) (c : option nat) :
  (tp_enabled dims = false
   \/ (0 < wm_tp_size mesh /\ norm_type job <> "fused_rmsnorm")) ->
  dp_enabled dims = true ->
  (1 < wm_ndim mesh \/ wm_mesh_dim_names mesh = ["dp"]) ->
  mode (activation_checkpoint job) = "selective" ->
  selective_ac_option (activation_checkpoint job) <> "op" ->
  ascii7 (selective_ac_option (activation_checkpoint job)) = true ->
  isdigit (selective_ac_option (activation_checkpoint job)) = false ->
  let m0 := if tp_enabled dims then tp_applied (wm_tp_size mesh) m else m in
  (model_layers m <> [] ->
   parallelize_llama mesh dims job {| heap_model := m; ckpt_count := c |}
   = (Err NotImplementedError, {| heap_model := m0; ckpt_count := c |}))
  /\ (model_layers m = [] ->
      parallelize_llama mesh dims job {| heap_model := m; ckpt_count := c |}
      = (Ok (dp_applied (fun b => b) m0),
         {| heap_model := dp_applied (fun b => b) m0; ckpt_count := c |})).
Proof.
  intros Htp Hdp Hmesh Hm Ho _ Hd m0. subst m0.
  assert (Hnotp : forall m1 d, tp_enabled d = false -> dp_enabled d = true ->
            (model_layers m1 <> [] ->
             parallelize_llama mesh d job {| heap_model := m1; ckpt_count := c |}
             = (Err NotImplementedError, {| heap_model := m1; ckpt_count := c |}))
            /\ (model_layers m1 = [] ->
                parallelize_llama mesh d job {| heap_model := m1; ckpt_count := c |}
                = (Ok (dp_applied (fun b => b) m1),
                   {| heap_model := dp_applied (fun b => b) m1; ckpt_count := c |}))).
  { intros m1 d Ht Hdp1. unfold parallelize_llama.
    rewrite Ht, Hdp1, (dp_names_ok _ Hmesh).
    destruct (list_eq_dec string_dec ["dp"] ["dp"]) as [_|Hne2]; [|congruence].
    cbv [bind ret get_model put_model]. split.
    - intros Hne1. destruct (model_layers m1) as [|b bs] eqn:El; [congruence|].
      rewrite (each_layer_first_err _ _ _ b bs _ _ El (dp_block_invalid _ b _ Hm Ho Hd)).
      reflexivity.
    - intros El. rewrite (each_layer_nil _ _ _ El). cbn [heap_model ckpt_count].
      unfold dp_applied. rewrite El. reflexivity. }
  destruct (tp_enabled dims) eqn:Etp.
  - destruct Htp as [Htp|[Hpos Hn]]; [discriminate|].
    rewrite (parallelize_llama_tp_phase _ _ _ _ _ Etp Hpos Hn).
    destruct (Hnotp (tp_applied (wm_tp_size mesh) m) (dims_no_tp dims))
      as [H1 H2]; [reflexivity | exact Hdp |].
    split.
    + intros Hne. apply H1. cbn [tp_applied model_layers].
      destruct (model_layers m); [congruence | discriminate].
    + intros El. apply H2. cbn [tp_applied model_layers]. rewrite El. reflexivity.
  - apply Hnotp; auto.
Qed.

Lemma parallelize_llama_invalid_ac_witness :
  parallelize_llama mesh_tp2 (dims_of 1 2 true)
    (job_of 8 16 "manual" "1f1b" {| mode := "selective"; selective_ac_option := "-1" |})
    {| heap_model := model5; ckpt_count := None |}
  = (Err NotImplementedError, {| heap_model := tp_applied 2 model5; ckpt_count := None |}).
Proof.
  destruct (parallelize_llama_invalid_ac mesh_tp2 (dims_of 1 2 true)
              (job_of 8 16 "manual" "1f1b"
                 {| mode := "selective"; selective_ac_option := "-1" |})
              model5 None) as [H _].
  - right. split; [simpl; lia | discriminate].
  - reflexivity.
  - right. reflexivity.
  - reflexivity.
  - discriminate.
  - reflexivity.
  - reflexivity.
  - apply H. discriminate.
Defined.

(** X13: with data parallelism on, a mesh that is one-dimensional (or has
    no dimensions) and whose dimension names are not exactly ["dp"] fails
    the assertion of line 447, after the TP pass has already mutated the
    model; no block is sharded. *)
Theorem parallelize_llama_dp_mesh_assert (mesh : WorldMesh) (dims : ParallelDims)
  (job : JobConfig) (m : Model) (c : option nat) :
  (tp_enabled dims = false
   \/ (0 < wm_tp_size mesh /\ norm_type job <> "fused_rmsnorm")) ->
  dp_enabled dims = true ->
  wm_ndim mesh <= 1 -> wm_mesh_dim_names mesh <> ["dp"] ->
  parallelize_llama mesh dims job {| heap_model := m; ckpt_count := c |}
  = (Err AssertionError,
     {| heap_model := if tp_enabled dims then tp_applied (wm_tp_size mesh) m else m;
        ckpt_count := c |}).
Proof.
  intros Htp Hdp Hnd Hnames.
  assert (Hnotp : forall m1 d, tp_enabled d = false -> dp_enabled d = true ->
            parallelize_llama mesh d job {| heap_model := m1; ckpt_count := c |}
            = (Err AssertionError, {| heap_model := m1; ckpt_count := c |})).
  { intros m1 d Ht Hdp1. unfold parallelize_llama. rewrite Ht, Hdp1.
    destruct (Nat.ltb_spec 1 (wm_ndim mesh)); [lia|].
    destruct (list_eq_dec string_dec (wm_mesh_dim_names mesh) ["dp"]); [congruence|].
    reflexivity. }
  destruct (tp_enabled dims) eqn:Etp.
  - destruct Htp as [Htp|[Hpos Hn]]; [discriminate|].
    rewrite (parallelize_llama_tp_phase _ _ _ _ _ Etp Hpos Hn).
    apply Hnotp; auto.
  - apply Hnotp; auto.
Qed.

Lemma parallelize_llama_dp_mesh_assert_witness :
  parallelize_llama {| wm_ndim := 1; wm_mesh_dim_names := ["tp"]; wm_tp_size := 2 |}
    (dims_of 1 2 true) (job_of 8 16 "manual" "1f1b" no_ac)
    {| heap_model := model5; ckpt_count := None |}
  = (Err AssertionError, {| heap_model := tp_applied 2 model5; ckpt_count := None |}).
Proof.
  apply (parallelize_llama_dp_mesh_assert
           {| wm_ndim := 1; wm_mesh_dim_names := ["tp"]; wm_tp_size := 2 |}
           (dims_of 1 2 true) (job_of 8 16 "manual" "1f1b" no_ac) model5 None).
  - right. split; [simpl; lia | discriminate].
  - reflexivity.
  - simpl; lia.
  - discriminate.
Defined.

(** X14: with TP on and the fused RMSNorm selected, [parallelize_llama]
    raises [NotImplementedError] before touching the model or the counter,
    whatever the other settings. *)
Theorem parallelize_llama_fused_rmsnorm (mesh : WorldMesh) (dims : ParallelDims)
  (job : JobConfig) (w : World) :
  tp_enabled dims = true -> norm_type job = "fused_rmsnorm" ->
  parallelize_llama mesh dims job w = (Err NotImplementedError, w).
Proof.
  intros Htp Hn. unfold parallelize_llama. rewrite Htp, Hn. reflexivity.
Qed.

Lemma parallelize_llama_fused_rmsnorm_witness :
  parallelize_llama mesh_tp2 (dims_of 1 2 true)
    {| batch_size := 8; seq_len := 16; norm_type := "fused_rmsnorm";
       pipeline_parallel_split_mode := "manual"; pipeline_parallel_schedule := "1f1b";
       activation_checkpoint := no_ac |}
    {| heap_model := model5; ckpt_count := Some 2 |}
  = (Err NotImplementedError, {| heap_model := model5; ckpt_count := Some 2 |}).
Proof. apply parallelize_llama_fused_rmsnorm; reflexivity. Defined.

(** ** Split-mode dispatch *)

(** X15: the two split modes do not check the same things. The manual
    split never reads [pp_enabled] nor the norm type: its stage is the
    same whatever they are, fused RMSNorm and pipeline parallelism off
    included. The tracer split raises [AssertionError] when pipeline
    parallelism is off and [NotImplementedError] for the fused RMSNorm.
    Any other split mode raises [NotImplementedError]. *)
Theorem pipeline_split_mode_checks (L : nat) (mesh : PPMesh) (dims : ParallelDims)
  (job : JobConfig) (mc : ModelConfig) (p : bool) (n : string) :
  apply_pipeline_parallelism_manual L mesh (with_pp_enabled dims p) (with_norm_type job n) mc
  = apply_pipeline_parallelism_manual L mesh dims job mc
  /\ (pipeline_parallel_split_mode job = "manual" ->
      apply_pipeline_parallelism L mesh (with_pp_enabled dims p) (with_norm_type job n) mc
      = apply_pipeline_parallelism L mesh dims job mc)
  /\ (pipeline_parallel_split_mode job = "tracer" -> pp_enabled dims = false ->
      apply_pipeline_parallelism L mesh dims job mc = Err AssertionError)
  /\ (pipeline_parallel_split_mode job = "tracer" -> pp_enabled dims = true ->
      norm_type job = "fused_rmsnorm" ->
      apply_pipeline_parallelism L mesh dims job mc = Err NotImplementedError)
  /\ (pipeline_parallel_split_mode job <> "manual" ->
      pipeline_parallel_split_mode job <> "tracer" ->
      apply_pipeline_parallelism L mesh dims job mc = Err NotImplementedError).
Proof.
  assert (Hman : apply_pipeline_parallelism_manual L mesh (with_pp_enabled dims p)
                   (with_norm_type job n) mc
                 = apply_pipeline_parallelism_manual L mesh dims job mc)
    by reflexivity.
  split; [exact Hman|]. unfold apply_pipeline_parallelism.
  split; [|split; [|split]].
  - intros Hs. cbn [with_norm_type pipeline_parallel_split_mode]. rewrite Hs.
    cbn. rewrite Hman. reflexivity.
  - intros Hs Hp. rewrite Hs. cbn.
    unfold apply_pipeline_parallelism_tracer. rewrite Hp. reflexivity.
  - intros Hs Hp Hn. rewrite Hs. cbn.
    unfold apply_pipeline_parallelism_tracer. rewrite Hp, Hn. reflexivity.
  - intros H1 H2. apply String.eqb_neq in H1, H2. rewrite H1, H2. reflexivity.
Qed.

Lemma pipeline_split_mode_checks_witness :
  apply_pipeline_parallelism 8 {| pp_local_rank := 0; pp_mesh_size := 1 |}
    (dims_of 1 1 false) (job_of 8 16 "tracer" "1f1b" no_ac) small_mc
  = Err AssertionError.
Proof.
  destruct (pipeline_split_mode_checks 8 {| pp_local_rank := 0; pp_mesh_size := 1 |}
              (dims_of 1 1 false) (job_of 8 16 "tracer" "1f1b" no_ac) small_mc true "rmsnorm")
    as [_ [_ [H _]]].
  apply H; reflexivity.
Defined.
